(** * Blog_with_users: a shallow embedding of [main.py]

    The Flask application of [main.py] is embedded as functions over an
    explicit world: the three tables of [blog.db], and the signed session
    cookie that [flask_login] and [flash] write to.  Route handlers become
    computations in a small state-and-exception monad, so that [abort],
    a missing form key, a failed commit and a dereference of [None] are
    all visible in the result of a request. *)

From stdpp Require Import base strings pretty gmap list.

Open Scope string_scope.
Open Scope list_scope.

(** ** Tables ([class User], [class BlogPost], [class Comment])

    Primary keys are [db.Integer]; the columns declared without
    [nullable=False] (the three foreign keys) are nullable and carry an
    [option]. *)

Record User := mkUser {
  user_id : nat;
  user_email : string;
  user_password : string;
  user_name : string
}.

Record BlogPost := mkBlogPost {
  post_id : nat;
  post_title : string;
  post_subtitle : string;
  post_date : string;
  post_body : string;
  post_img_url : string;
  post_author_id : option nat
}.

Record Comment := mkComment {
  comment_id : nat;
  comment_text : string;
  comment_author_id : option nat;
  comment_post_id : option nat
}.

(** Rows are kept in insertion order, the order [query.all()] and
    [.first()] see them in. *)
Record store := mkStore {
  users : list User;
  blog_posts : list BlogPost;
  comments : list Comment
}.

#[global] Instance User_eq_dec : EqDecision User.
Proof. solve_decision. Defined.
#[global] Instance BlogPost_eq_dec : EqDecision BlogPost.
Proof. solve_decision. Defined.
#[global] Instance Comment_eq_dec : EqDecision Comment.
Proof. solve_decision. Defined.
#[global] Instance store_eq_dec : EqDecision store.
Proof. solve_decision. Defined.

(** ** Session cookie

    [flask_login] keeps the id of the logged-in user under one key of the
    session, and [flash] queues its (category, message) pairs there. *)

Record session := mkSession {
  sess_user_id : option nat;
  sess_flashes : list (string * string)
}.

Record world := mkWorld {
  db : store;
  sess : session
}.

(** ** Requests and responses *)

Inductive http_method := GET | POST.

(** [date.today()] *)
Inductive month :=
  | January | February | March | April | May | June
  | July | August | September | October | November | December.

Record date := mkDate { year : nat; mon : month; day : nat }.

(** The field data of a bound [CreatePostForm] ([form.title.data] and
    the like).  The form classes live in [forms.py]. *)
Record CreatePostForm := mkCreatePostForm {
  title_data : string;
  subtitle_data : string;
  img_url_data : string;
  body_data : string
}.

(** What a handler reads from its surroundings while it serves one
    request: the method, [request.form], the bound post form, the clock
    and the salt that [generate_password_hash] draws. *)
Record request := mkRequest {
  method : http_method;
  form : gmap string string;
  post_form : CreatePostForm;
  today : date;
  salt : string
}.

Inductive endpoint :=
  | to_get_all_posts (logged_in : option bool)
  | to_login
  | to_show_post (pid : nat).

Inductive template_args :=
  | index_html (all_posts : list BlogPost)
  | register_html
  | login_html
  | post_html (post : option BlogPost) (post_comments : list Comment)
  | about_html
  | contact_html
  | make_post_html (shown : CreatePostForm).

Inductive response :=
  | redirect (target : endpoint)
  | render_template (page : template_args).

(** ** Exceptions

    [abort(code)] raises an [HTTPException]; [request.form[k]] on a missing
    key raises [BadRequestKeyError]; a commit that breaks a constraint
    raises [IntegrityError]; an attribute read on [None] raises
    [AttributeError]; [db.session.delete(None)] raises
    [UnmappedInstanceError]. *)
Inductive exn :=
  | HTTPException (code : nat)
  | BadRequestKeyError (key : string)
  | IntegrityError
  | AttributeError
  | UnmappedInstanceError.

Inductive result (A : Type) :=
  | Ok (a : A)
  | Raise (e : exn).
Arguments Ok {A} a.
Arguments Raise {A} e.

(** The status line the client receives. *)
Definition status_code (r : result response) : nat :=
  match r with
  | Ok (redirect _) => 302
  | Ok (render_template _) => 200
  | Raise (HTTPException code) => code
  | Raise (BadRequestKeyError _) => 400
  | Raise _ => 500
  end.

Definition Forbidden : result response := Raise (HTTPException 403).

(** ** The handler monad *)

Definition M (A : Type) : Type := world → result A * world.

Definition ret {A} (a : A) : M A := λ w, (Ok a, w).

Definition bind {A B} (m : M A) (k : A → M B) : M B :=
  λ w, match m w with
       | (Ok a, w') => k a w'
       | (Raise e, w') => (Raise e, w')
       end.

Definition raise {A} (e : exn) : M A := λ w, (Raise e, w).

(** [try: m except IntegrityError: h] *)
Definition try_except_IntegrityError {A} (m : M A) (h : M A) : M A :=
  λ w, match m w with
       | (Raise IntegrityError, w') => h w'
       | r => r
       end.

Declare Scope handler_scope.
Delimit Scope handler_scope with handler.
Notation "'do' x <- m ;; k" := (bind m (λ x, k))
  (at level 10, x name, m at level 99, k at level 200) : handler_scope.
Open Scope handler_scope.

Definition get_db : M store := λ w, (Ok (db w), w).
Definition put_db (s : store) : M unit := λ w, (Ok tt, mkWorld s (sess w)).
Definition get_sess : M session := λ w, (Ok (sess w), w).
Definition put_sess (s : session) : M unit := λ w, (Ok tt, mkWorld (db w) s).

Definition abort {A} (code : nat) : M A := raise (HTTPException code).

(** ** Queries *)

Definition has_user_id (i : nat) (u : User) : bool := bool_decide (user_id u = i).
Definition has_email (e : string) (u : User) : bool := bool_decide (user_email u = e).
Definition has_post_id (i : nat) (p : BlogPost) : bool := bool_decide (post_id p = i).
Definition has_title (t : string) (p : BlogPost) : bool := bool_decide (post_title p = t).
Definition has_parent (i : nat) (c : Comment) : bool :=
  bool_decide (comment_post_id c = Some i).

(** [User.query.get(i)] *)
Definition User_query_get (i : nat) : M (option User) :=
  do s <- get_db ;; ret (find (has_user_id i) (users s)).

(** [User.query.filter_by(email=e).first()] *)
Definition User_query_filter_by_email_first (e : string) : M (option User) :=
  do s <- get_db ;; ret (find (has_email e) (users s)).

(** [BlogPost.query.all()] *)
Definition BlogPost_query_all : M (list BlogPost) :=
  do s <- get_db ;; ret (blog_posts s).

(** A post id taken from the URL ([<int:post_id>]) is an unbounded
    Python integer; the driver binds a query parameter as an SQLite
    integer, which is 64-bit and signed, and raises [OverflowError]
    for a larger one before any row is read.  The two queries below that
    take a post id describe a parameter in that range; the statements
    about a post id that need not belong to a row assume it. *)
Definition sqlite_integer (i : nat) : Prop := (Z.of_nat i < 2 ^ 63)%Z.

(** [BlogPost.query.get(i)], for [i] an SQLite integer. *)
Definition BlogPost_query_get (i : nat) : M (option BlogPost) :=
  do s <- get_db ;; ret (find (has_post_id i) (blog_posts s)).

(** [Comment.query.filter_by(post_id=i).all()], for [i] an SQLite
    integer. *)
Definition Comment_query_filter_by_post_id (i : nat) : M (list Comment) :=
  do s <- get_db ;; ret (List.filter (has_parent i) (comments s)).

(** ** Writes

    Every handler that writes stages one change and commits at once, so
    [db.session.add(row); db.session.commit()] is one step here: the row
    gets the next rowid of its table (an [INTEGER PRIMARY KEY] column
    without [AUTOINCREMENT]: one more than the largest id in the table),
    the [unique=True] columns are checked, and a violation raises
    [IntegrityError] with nothing written. *)

Definition next_id (ids : list nat) : nat := S (max_list ids).

Definition add_commit_User (e p n : string) : M User :=
  do s <- get_db ;;
  if existsb (has_email e) (users s) then raise IntegrityError
  else
    let u := mkUser (next_id (user_id <$> users s)) e p n in
    do _ <- put_db (mkStore (users s ++ [u]) (blog_posts s) (comments s)) ;;
    ret u.

Definition add_commit_BlogPost (t st b i : string) (a : option nat) (d : string)
  : M BlogPost :=
  do s <- get_db ;;
  if existsb (has_title t) (blog_posts s) then raise IntegrityError
  else
    let p := mkBlogPost (next_id (post_id <$> blog_posts s)) t st d b i a in
    do _ <- put_db (mkStore (users s) (blog_posts s ++ [p]) (comments s)) ;;
    ret p.

(** The foreign keys of [comments] are not enforced by the SQLite
    connection the application opens (no [PRAGMA foreign_keys]), so an
    insert of a comment cannot fail. *)
Definition add_commit_Comment (t : string) (a p : option nat) : M Comment :=
  do s <- get_db ;;
  let c := mkComment (next_id (comment_id <$> comments s)) t a p in
  do _ <- put_db (mkStore (users s) (blog_posts s) (comments s ++ [c])) ;;
  ret c.

(** [post.title = ...; post.subtitle = ...; post.img_url = ...;
    post.body = ...; db.session.commit()] on the loaded row [i]. *)
Definition set_fields (f : CreatePostForm) (p : BlogPost) : BlogPost :=
  mkBlogPost (post_id p) (title_data f) (subtitle_data f) (post_date p)
             (body_data f) (img_url_data f) (post_author_id p).

Definition update_row (i : nat) (f : CreatePostForm) (p : BlogPost) : BlogPost :=
  if has_post_id i p then set_fields f p else p.

Definition title_taken_by_other (i : nat) (t : string) (p : BlogPost) : bool :=
  negb (has_post_id i p) && has_title t p.

Definition update_commit_BlogPost (i : nat) (f : CreatePostForm) : M unit :=
  do s <- get_db ;;
  if existsb (title_taken_by_other i (title_data f)) (blog_posts s)
  then raise IntegrityError
  else put_db (mkStore (users s) (update_row i f <$> blog_posts s) (comments s)).

(** [db.session.delete(post); db.session.commit()].  The relationship
    [BlogPost.comments] declares no delete cascade, so the unit of work
    keeps the child rows and clears their [post_id]. *)
Definition detach (i : nat) (c : Comment) : Comment :=
  if has_parent i c
  then mkComment (comment_id c) (comment_text c) (comment_author_id c) None
  else c.

Definition delete_commit_BlogPost (p : BlogPost) : M unit :=
  do s <- get_db ;;
  put_db (mkStore (users s)
                  (List.filter (λ q, negb (has_post_id (post_id p) q)) (blog_posts s))
                  (detach (post_id p) <$> comments s)).

(** ** flask_login and flash *)

(** [load_user], the [user_loader] callback. *)
Definition load_user (i : nat) : M (option User) := User_query_get i.

(** [current_user]: the loaded user, or the anonymous user ([None]) when
    the session names nobody or names an id with no row. *)
Definition current_user : M (option User) :=
  do c <- get_sess ;;
  match sess_user_id c with
  | None => ret None
  | Some i => load_user i
  end.

Definition is_authenticated (cu : option User) : bool :=
  match cu with Some _ => true | None => false end.

Definition login_user (u : User) : M unit :=
  do c <- get_sess ;; put_sess (mkSession (Some (user_id u)) (sess_flashes c)).

Definition logout_user : M unit :=
  do c <- get_sess ;; put_sess (mkSession None (sess_flashes c)).

Definition flash (message category : string) : M unit :=
  do c <- get_sess ;;
  put_sess (mkSession (sess_user_id c) (sess_flashes c ++ [(category, message)])).

(** [request.form[key]] *)
Definition request_form (rq : request) (key : string) : M string :=
  match form rq !! key with
  | Some v => ret v
  | None => raise (BadRequestKeyError key)
  end.

(** ** [date.today().strftime("%B %d, %Y")] *)

Definition month_name (m : month) : string :=
  match m with
  | January => "January" | February => "February" | March => "March"
  | April => "April" | May => "May" | June => "June"
  | July => "July" | August => "August" | September => "September"
  | October => "October" | November => "November" | December => "December"
  end.

Definition two_digits (n : nat) : string :=
  if bool_decide (n < 10) then "0" +:+ pretty n else pretty n.

Definition strftime_B_d_Y (d : date) : string :=
  month_name (mon d) +:+ " " +:+ two_digits (day d) +:+ ", " +:+ pretty (year d).

(** ** Route handlers *)

Section Handlers.

(** [werkzeug.security]: [generate_password_hash(raw, salt_length=6)]
    with the salt it draws made explicit, and [check_password_hash]. *)
Variable generate_password_hash : string → string → string.
Variable check_password_hash : string → string → bool.

(** [FlaskForm.validate()] for [CreatePostForm]; its validators are
    declared in [forms.py]. *)
Variable validate : CreatePostForm → bool.

(** [form.validate_on_submit()]: submitted, and valid. *)
Definition validate_on_submit (m : http_method) (f : CreatePostForm) : bool :=
  match m with
  | POST => validate f
  | GET => false
  end.

(** [not current_user.is_authenticated or current_user.id != 1] *)
Definition not_admin (cu : option User) : bool :=
  negb (is_authenticated cu) || bool_decide (user_id <$> cu ≠ Some 1).

(** The decorator [admin_only]. *)
Definition admin_only (f : M response) : M response :=
  do cu <- current_user ;;
  if not_admin cu then abort 403 else f.

Definition get_all_posts (rq : request) : M response :=
  do posts <- BlogPost_query_all ;;
  ret (render_template (index_html posts)).

Definition register (rq : request) : M response :=
  match method rq with
  | POST =>
      try_except_IntegrityError
        (do raw_pswd <- request_form rq "password" ;;
         let hashed_password := generate_password_hash raw_pswd (salt rq) in
         do e <- request_form rq "email" ;;
         do n <- request_form rq "name" ;;
         do user <- add_commit_User e hashed_password n ;;
         do _ <- flash "You've been successfully registered and logged in." "success" ;;
         do _ <- login_user user ;;
         ret (redirect (to_get_all_posts None)))
        (do _ <- flash "You've already signed up with that email. Login instead!" "error" ;;
         ret (redirect to_login))
  | GET => ret (render_template register_html)
  end.

Definition login (rq : request) : M response :=
  match method rq with
  | POST =>
      do e <- request_form rq "email" ;;
      do user <- User_query_filter_by_email_first e ;;
      match user with
      | Some u =>
          do p <- request_form rq "password" ;;
          if check_password_hash (user_password u) p then
            do _ <- login_user u ;;
            do _ <- flash "You've been successfully logged in" "success" ;;
            do cu <- current_user ;;
            ret (redirect (to_get_all_posts (Some (is_authenticated cu))))
          else
            do _ <- flash "Password is incorrect, Try again." "error" ;;
            ret (redirect to_login)
      | None =>
          do _ <- flash "Email doesn't exist, Try again." "error" ;;
          ret (redirect to_login)
      end
  | GET => ret (render_template login_html)
  end.

Definition logout (rq : request) : M response :=
  do _ <- logout_user ;;
  ret (redirect (to_get_all_posts None)).

Definition show_post (rq : request) (pid : nat) : M response :=
  do shown <- Comment_query_filter_by_post_id pid ;;
  match method rq with
  | POST =>
      do cu <- current_user ;;
      match cu with
      | Some u =>
          do comment <- request_form rq "comment" ;;
          do _ <- add_commit_Comment comment (Some (user_id u)) (Some pid) ;;
          ret (redirect (to_show_post pid))
      | None =>
          do _ <- flash "You need to Register or Login to comment" "error" ;;
          ret (redirect to_login)
      end
  | GET =>
      do requested_post <- BlogPost_query_get pid ;;
      ret (render_template (post_html requested_post shown))
  end.

Definition about (rq : request) : M response :=
  ret (render_template about_html).

Definition contact (rq : request) : M response :=
  ret (render_template contact_html).

Definition add_new_post (rq : request) : M response :=
  admin_only
    (let f := post_form rq in
     if validate_on_submit (method rq) f then
       do cu <- current_user ;;
       do _ <- add_commit_BlogPost (title_data f) (subtitle_data f) (body_data f)
                 (img_url_data f) (user_id <$> cu) (strftime_B_d_Y (today rq)) ;;
       ret (redirect (to_get_all_posts None))
     else ret (render_template (make_post_html f))).

(** [CreatePostForm(title=post.title, ...)]: the keyword arguments fill
    the form on GET, the submitted data on POST. *)
Definition edit_form (rq : request) (p : BlogPost) : CreatePostForm :=
  match method rq with
  | GET => mkCreatePostForm (post_title p) (post_subtitle p) (post_img_url p) (post_body p)
  | POST => post_form rq
  end.

Definition edit_post (rq : request) (pid : nat) : M response :=
  admin_only
    (do post <- BlogPost_query_get pid ;;
     match post with
     | None => raise AttributeError
     | Some p =>
         let f := edit_form rq p in
         if validate_on_submit (method rq) f then
           do _ <- update_commit_BlogPost (post_id p) f ;;
           ret (redirect (to_show_post (post_id p)))
         else ret (render_template (make_post_html f))
     end).

Definition delete_post (rq : request) (pid : nat) : M response :=
  admin_only
    (do post_to_delete <- BlogPost_query_get pid ;;
     match post_to_delete with
     | None => raise UnmappedInstanceError
     | Some p =>
         do _ <- delete_commit_BlogPost p ;;
         ret (redirect (to_get_all_posts None))
     end).

End Handlers.

(** ** Derived notions used by the statements *)

(** The row [current_user] resolves to, as a function of the world. *)
Definition acting_user (w : world) : option User :=
  match sess_user_id (sess w) with
  | None => None
  | Some i => find (has_user_id i) (users (db w))
  end.

(** The administrator is the caller whose row has id 1. *)
Definition is_admin (w : world) : Prop := user_id <$> acting_user w = Some 1.

(** Number of comments whose parent is post [i]. *)
Definition comment_count (i : nat) (s : store) : nat :=
  length (List.filter (has_parent i) (comments s)).

(** Every comment's parent post is a row of [blog_posts]. *)
Definition parent_present (s : store) (c : Comment) : bool :=
  match comment_post_id c with
  | Some i => existsb (has_post_id i) (blog_posts s)
  | None => false
  end.

Definition parents_present (s : store) : bool :=
  forallb (parent_present s) (comments s).

Definition push_flash (category message : string) (c : session) : session :=
  mkSession (sess_user_id c) (sess_flashes c ++ [(category, message)]).

(** The columns of a comment that no route rewrites. *)
Definition comment_row (c : Comment) : nat * string * option nat :=
  (comment_id c, comment_text c, comment_author_id c).

(** The columns of a post that no route rewrites. *)
Definition post_stamp (p : BlogPost) : nat * string * option nat :=
  (post_id p, post_date p, post_author_id p).

(** ** A small site, used in the examples

    Two registered users (the first one is the administrator), two
    posts and one comment; the same tables seen by the administrator,
    by another logged-in user and by a visitor. *)

Definition toy_hash (raw salt : string) : string := salt +:+ "$" +:+ raw.

Definition toy_check (hashed raw : string) : bool :=
  bool_decide (hashed = toy_hash raw "NaCl00").

Definition toy_validate (f : CreatePostForm) : bool :=
  negb (bool_decide (title_data f = "")).

Definition admin_row : User :=
  mkUser 1 "admin@example.com" "NaCl00$secret" "Admin".

Definition alice_row : User :=
  mkUser 2 "alice@example.com" "NaCl00$wonderland" "Alice".

Definition hello_post : BlogPost :=
  mkBlogPost 1 "Hello World" "First" "November 04, 2026" "Body"
    "http://img/1.png" (Some 1).

Definition second_post : BlogPost :=
  mkBlogPost 2 "Second Post" "Next" "November 04, 2026" "More"
    "http://img/2.png" (Some 1).

Definition nice_comment : Comment :=
  mkComment 1 "Nice post!" (Some 2) (Some 1).

Definition site : store :=
  mkStore [admin_row; alice_row] [hello_post; second_post] [nice_comment].

Definition as_admin : world := mkWorld site (mkSession (Some 1) []).
Definition as_alice : world := mkWorld site (mkSession (Some 2) []).
Definition as_visitor : world := mkWorld site (mkSession None []).

Definition empty_site : world := mkWorld (mkStore [] [] []) (mkSession None []).

Definition blank_form : CreatePostForm := mkCreatePostForm "" "" "" "".

Definition clock : date := mkDate 2026 November 4.

Definition get_request : request :=
  mkRequest GET ∅ blank_form clock "NaCl00".

Definition post_request (fields : list (string * string)) (f : CreatePostForm)
  : request :=
  mkRequest POST (list_to_map fields) f clock "NaCl00".

(** ** What the schema declares

    The primary keys and the [unique=True] columns of the three tables. *)
Record store_ok (s : store) : Prop := mk_store_ok {
  users_pk : NoDup (user_id <$> users s);
  users_email : NoDup (user_email <$> users s);
  posts_pk : NoDup (post_id <$> blog_posts s);
  posts_title : NoDup (post_title <$> blog_posts s);
  comments_pk : NoDup (comment_id <$> comments s)
}.

(** Every comment's author is a row of [users]. *)
Definition author_present (s : store) (c : Comment) : bool :=
  match comment_author_id c with
  | Some i => existsb (has_user_id i) (users s)
  | None => false
  end.

Definition authors_present (s : store) : bool :=
  forallb (author_present s) (comments s).

(** Every post is written by the user with id 1. *)
Definition written_by_admin (p : BlogPost) : bool :=
  bool_decide (post_author_id p = Some 1).

Definition posts_by_admin (s : store) : bool :=
  forallb written_by_admin (blog_posts s).

(** Requests sent to the example site. *)

Definition admin_request : request :=
  post_request [("email", "admin@example.com"); ("password", "secret");
                ("name", "Admin")] blank_form.

Definition bob_request : request :=
  post_request [("email", "bob@example.com"); ("password", "builder");
                ("name", "Bob")] blank_form.

Definition bob_login : request :=
  post_request [("email", "bob@example.com"); ("password", "builder")] blank_form.

Definition comment_request : request :=
  post_request [("comment", "Me too")] blank_form.

Definition third_request : request :=
  post_request [] (mkCreatePostForm "Third Post" "Again" "http://img/3.png" "Text").

Definition revise_request : request :=
  post_request [] (mkCreatePostForm "Second, revised" "Sub" "http://img/9.png" "New").

Definition retouch_request : request :=
  post_request [] (mkCreatePostForm "Second Post" "Sub" "http://img/9.png" "New").

Definition clash_request : request :=
  post_request [] (mkCreatePostForm "Hello World" "Next" "http://img/2.png" "More").

(** ** Basic facts about the monad and the guard *)

Lemma current_user_eq w : current_user w = (Ok (acting_user w), w).
Proof.
  unfold current_user, acting_user, bind, get_sess.
  destruct (sess_user_id (sess w)); reflexivity.
Qed.

Lemma not_admin_false cu : not_admin cu = false ↔ user_id <$> cu = Some 1.
Proof.
  unfold not_admin. destruct cu as [u|]; simpl.
  - rewrite bool_decide_eq_false. split.
    + intros H. destruct (decide (Some (user_id u) = Some 1)); [done | contradiction].
    + intros H Hn. contradiction.
  - split; discriminate.
Qed.

Lemma not_admin_true cu : user_id <$> cu ≠ Some 1 → not_admin cu = true.
Proof.
  intros H. destruct (not_admin cu) eqn:E; [done|].
  apply not_admin_false in E. contradiction.
Qed.

Section Guard.
Variable f : M response.

Lemma admin_only_deny w : ¬ is_admin w → admin_only f w = (Forbidden, w).
Proof.
  intros H. unfold admin_only, bind. rewrite current_user_eq.
  rewrite not_admin_true; [reflexivity | exact H].
Qed.

Lemma admin_only_allow w : is_admin w → admin_only f w = f w.
Proof.
  intros H. unfold admin_only, bind. rewrite current_user_eq.
  apply not_admin_false in H. rewrite H. reflexivity.
Qed.
End Guard.

(** ** The guard on post mutation *)

(** C1: a caller whose current user is not the row with id 1, logged in
    or not, gets 403 Forbidden from the create, edit and delete routes,
    and the tables and the session are left exactly as they were. *)
Theorem admin_only_forbids_everyone_else validate rq pid w :
  ¬ is_admin w →
  add_new_post validate rq w = (Forbidden, w) ∧
  edit_post validate rq pid w = (Forbidden, w) ∧
  delete_post rq pid w = (Forbidden, w) ∧
  status_code Forbidden = 403.
Proof.
  intros H. unfold add_new_post, edit_post, delete_post.
  rewrite !admin_only_deny by exact H. done.
Qed.

(** ** Logout *)

(** C9: [logout] always answers with the redirect; afterwards the session
    resolves to no user, the tables are untouched, and a second [logout]
    from the logged-out world succeeds again and changes nothing. *)
Theorem logout_clears_session rq rq' w :
  let w' := snd (logout rq w) in
  fst (logout rq w) = Ok (redirect (to_get_all_posts None)) ∧
  acting_user w' = None ∧
  current_user w' = (Ok None, w') ∧
  db w' = db w ∧
  logout rq' w' = (Ok (redirect (to_get_all_posts None)), w').
Proof.
  cbv zeta. unfold logout, logout_user, bind, get_sess, put_sess, ret; simpl.
  repeat split.
Qed.

(** ** Unknown post ids *)

Section UnknownPost.
Variable validate : CreatePostForm → bool.
Variables (rq : request) (pid : nat) (w : world).
Hypothesis absent : find (has_post_id pid) (blog_posts (db w)) = None.


Lemma edit_post_unknown :
  is_admin w → edit_post validate rq pid w = (Raise AttributeError, w).
Proof.
  intros Ha. unfold edit_post. rewrite admin_only_allow by exact Ha.
  unfold bind, BlogPost_query_get, get_db, ret, raise; simpl.
  rewrite absent. reflexivity.
Qed.

Lemma delete_post_unknown :
  is_admin w → delete_post rq pid w = (Raise UnmappedInstanceError, w).
Proof.
  intros Ha. unfold delete_post. rewrite admin_only_allow by exact Ha.
  unfold bind, BlogPost_query_get, get_db, ret, raise; simpl.
  rewrite absent. reflexivity.
Qed.
End UnknownPost.


(** ** Lookups by column *)

Lemma existsb_has_email e (l : list User) :
  existsb (has_email e) l = true ↔ e ∈ user_email <$> l.
Proof.
  induction l as [|u l IH]; simpl.
  - split; [discriminate | intros H; inversion H].
  - rewrite orb_true_iff, IH, elem_of_cons. unfold has_email.
    rewrite bool_decide_eq_true. split; intros [H|H]; auto.
Qed.

Lemma existsb_has_email_false e (l : list User) :
  e ∉ user_email <$> l → existsb (has_email e) l = false.
Proof.
  intros H. destruct (existsb (has_email e) l) eqn:E; [|done].
  apply existsb_has_email in E. contradiction.
Qed.

Lemma find_has_email_none e (l : list User) :
  e ∉ user_email <$> l → find (has_email e) l = None.
Proof.
  induction l as [|u l IH]; simpl; [done|].
  rewrite not_elem_of_cons. intros [Hne Hl]. unfold has_email at 1.
  rewrite bool_decide_eq_false_2 by congruence. auto.
Qed.

Lemma find_has_email_unique (l : list User) u :
  NoDup (user_email <$> l) → u ∈ l → find (has_email (user_email u)) l = Some u.
Proof.
  induction l as [|v l IH]; simpl; intros Hnd Hin; [inversion Hin|].
  apply NoDup_cons in Hnd as [Hv Hnd]. unfold has_email at 1.
  apply elem_of_cons in Hin as [->|Hin].
  - by rewrite bool_decide_eq_true_2.
  - rewrite bool_decide_eq_false_2; [auto|].
    intros Heq. apply Hv. rewrite Heq. by apply list_elem_of_fmap_2.
Qed.

Lemma find_has_user_id_is_Some (l : list User) u :
  u ∈ l → is_Some (find (has_user_id (user_id u)) l).
Proof.
  induction l as [|v l IH]; simpl; intros Hin; [inversion Hin|].
  unfold has_user_id at 1. case_bool_decide; [eauto|].
  apply elem_of_cons in Hin as [->|Hin]; [done | auto].
Qed.

Lemma next_id_fresh (ids : list nat) : next_id ids ∉ ids.
Proof.
  intros H. apply max_list_elem_of_le in H. unfold next_id in H. lia.
Qed.

Lemma request_form_Some rq k v w :
  form rq !! k = Some v → request_form rq k w = (Ok v, w).
Proof. intros H. unfold request_form. rewrite H. reflexivity. Qed.

(** ** Registration *)

(** C2: a registration whose email is already in [users] ends in the
    redirect to the login page with the "already signed up" message, and
    neither the tables nor the logged-in user change; a registration with
    a new email appends exactly one row, with a fresh id, the given email
    and name and the hash of the given password, and binds the session to
    that row's id. *)
Theorem register_duplicate_or_new generate_password_hash rq w e pw n :
  method rq = POST →
  form rq !! "email" = Some e →
  form rq !! "password" = Some pw →
  form rq !! "name" = Some n →
  (e ∈ user_email <$> users (db w) →
   register generate_password_hash rq w =
     (Ok (redirect to_login),
      mkWorld (db w)
        (push_flash "error" "You've already signed up with that email. Login instead!"
           (sess w)))) ∧
  (e ∉ user_email <$> users (db w) →
   let u := mkUser (next_id (user_id <$> users (db w))) e
              (generate_password_hash pw (salt rq)) n in
   (user_id u ∉ user_id <$> users (db w)) ∧
   register generate_password_hash rq w =
     (Ok (redirect (to_get_all_posts None)),
      mkWorld (mkStore (users (db w) ++ [u]) (blog_posts (db w)) (comments (db w)))
        (mkSession (Some (user_id u))
           (sess_flashes (sess w) ++
              [("success", "You've been successfully registered and logged in.")])))).
Proof.
  intros Hm He Hp Hn. unfold register. rewrite Hm.
  unfold try_except_IntegrityError, bind.
  rewrite (request_form_Some _ _ _ _ Hp), (request_form_Some _ _ _ _ He),
    (request_form_Some _ _ _ _ Hn).
  unfold add_commit_User, bind, get_db. split.
  - intros Hin. apply existsb_has_email in Hin. rewrite Hin. reflexivity.
  - intros Hnin. split; [apply next_id_fresh|].
    rewrite existsb_has_email_false by exact Hnin. reflexivity.
Qed.

(** ** The unique email column is an invariant

    [register] is the only route that writes to [users], and it keeps the
    emails distinct; this is the hypothesis [login_outcomes] starts from. *)

Lemma add_commit_User_unique_emails e p n w :
  NoDup (user_email <$> users (db w)) →
  NoDup (user_email <$> users (db (snd (add_commit_User e p n w)))).
Proof.
  intros Hnd. unfold add_commit_User, bind, get_db.
  destruct (existsb (has_email e) (users (db w))) eqn:E; simpl; [exact Hnd|].
  rewrite fmap_app. apply NoDup_app. split; [exact Hnd|]. split.
  - simpl. intros x Hx Hx'. apply list_elem_of_singleton in Hx'. subst x.
    apply existsb_has_email in Hx. congruence.
  - simpl. apply NoDup_singleton.
Qed.

Lemma register_unique_emails generate_password_hash rq w :
  NoDup (user_email <$> users (db w)) →
  NoDup (user_email <$> users (db (snd (register generate_password_hash rq w)))).
Proof.
  intros Hnd. unfold register. destruct (method rq); [exact Hnd|].
  unfold try_except_IntegrityError, bind, request_form.
  destruct (form rq !! "password") as [pw|]; [|exact Hnd].
  destruct (form rq !! "email") as [e|]; [|exact Hnd].
  destruct (form rq !! "name") as [n|]; [|exact Hnd].
  cbv beta iota zeta delta [ret].
  pose proof (add_commit_User_unique_emails e
                (generate_password_hash pw (salt rq)) n w Hnd) as H.
  destruct (add_commit_User e (generate_password_hash pw (salt rq)) n w)
    as [[u|[]] w'] eqn:E; simpl in *; exact H.
Qed.

(** Every other route leaves [users] as it is. *)
Lemma other_routes_keep_users check_password_hash validate rq pid w :
  users (db (snd (login check_password_hash rq w))) = users (db w) ∧
  users (db (snd (logout rq w))) = users (db w) ∧
  users (db (snd (show_post rq pid w))) = users (db w) ∧
  users (db (snd (add_new_post validate rq w))) = users (db w) ∧
  users (db (snd (edit_post validate rq pid w))) = users (db w) ∧
  users (db (snd (delete_post rq pid w))) = users (db w).
Proof.
  unfold login, logout, show_post, add_new_post, edit_post, delete_post,
    admin_only, current_user, load_user, User_query_get,
    User_query_filter_by_email_first, Comment_query_filter_by_post_id,
    BlogPost_query_get, add_commit_BlogPost, add_commit_Comment,
    update_commit_BlogPost, delete_commit_BlogPost, login_user, logout_user,
    flash, request_form, abort, raise, bind, ret, get_db, put_db, get_sess,
    put_sess.
  repeat split; simpl; repeat (case_match; simplify_eq/=; try done).
Qed.

(** ** Login *)

(** One POST to [/login], run to its end. *)
Lemma login_POST check_password_hash rq w e p :
  method rq = POST →
  form rq !! "email" = Some e →
  form rq !! "password" = Some p →
  login check_password_hash rq w =
    match find (has_email e) (users (db w)) with
    | Some u =>
        if check_password_hash (user_password u) p then
          (Ok (redirect (to_get_all_posts
                 (Some (is_authenticated (find (has_user_id (user_id u)) (users (db w))))))),
           mkWorld (db w)
             (mkSession (Some (user_id u))
                (sess_flashes (sess w) ++
                   [("success", "You've been successfully logged in")])))
        else
          (Ok (redirect to_login),
           mkWorld (db w)
             (push_flash "error" "Password is incorrect, Try again." (sess w)))
    | None =>
        (Ok (redirect to_login),
         mkWorld (db w) (push_flash "error" "Email doesn't exist, Try again." (sess w)))
    end.
Proof.
  intros Hm He Hp. unfold login. rewrite Hm. unfold bind at 1.
  rewrite (request_form_Some _ _ _ _ He).
  unfold bind at 1, User_query_filter_by_email_first, bind at 1, get_db, ret at 1.
  destruct (find (has_email e) (users (db w))) as [u|]; [|reflexivity].
  unfold bind at 1. rewrite (request_form_Some _ _ _ _ Hp).
  destruct (check_password_hash (user_password u) p); [|reflexivity].
  reflexivity.
Qed.

(** C3: with unique emails in [users] (the [unique=True] column), a login
    for a registered user [u] with a password that verifies binds the
    session to [u]'s id; with a password that does not verify it binds
    nothing and flashes "Password is incorrect"; a login for an email of
    no row binds nothing and flashes "Email doesn't exist".  The flashed
    reasons differ, and no case writes to the tables. *)
Theorem login_outcomes check_password_hash rq w e p :
  method rq = POST →
  form rq !! "email" = Some e →
  form rq !! "password" = Some p →
  NoDup (user_email <$> users (db w)) →
  (∀ u, u ∈ users (db w) → user_email u = e →
     (check_password_hash (user_password u) p = true →
      login check_password_hash rq w =
        (Ok (redirect (to_get_all_posts (Some true))),
         mkWorld (db w)
           (mkSession (Some (user_id u))
              (sess_flashes (sess w) ++
                 [("success", "You've been successfully logged in")])))) ∧
     (check_password_hash (user_password u) p = false →
      login check_password_hash rq w =
        (Ok (redirect to_login),
         mkWorld (db w)
           (push_flash "error" "Password is incorrect, Try again." (sess w))))) ∧
  (e ∉ user_email <$> users (db w) →
   login check_password_hash rq w =
     (Ok (redirect to_login),
      mkWorld (db w) (push_flash "error" "Email doesn't exist, Try again." (sess w)))) ∧
  "Email doesn't exist, Try again." ≠ "Password is incorrect, Try again.".
Proof.
  intros Hm He Hp Hnd. rewrite (login_POST _ _ _ _ _ Hm He Hp).
  split; [|split; [|discriminate]].
  - intros u Hin <-. rewrite (find_has_email_unique _ _ Hnd Hin).
    split; intros ->; [|reflexivity].
    destruct (find_has_user_id_is_Some _ _ Hin) as [v ->]. reflexivity.
  - intros Hnin. rewrite (find_has_email_none _ _ Hnin). reflexivity.
Qed.

(** ** Creating a post *)

Lemma existsb_has_title t (l : list BlogPost) :
  existsb (has_title t) l = true ↔ t ∈ post_title <$> l.
Proof.
  induction l as [|q l IH]; simpl.
  - split; [discriminate | intros H; inversion H].
  - rewrite orb_true_iff, IH, elem_of_cons. unfold has_title.
    rewrite bool_decide_eq_true. split; intros [H|H]; auto.
Qed.

Lemma find_has_post_id_none i (l : list BlogPost) :
  i ∉ post_id <$> l → find (has_post_id i) l = None.
Proof.
  induction l as [|q l IH]; simpl; [done|].
  rewrite not_elem_of_cons. intros [Hne Hl]. unfold has_post_id at 1.
  rewrite bool_decide_eq_false_2 by congruence. auto.
Qed.

Lemma find_snoc {A} (f : A → bool) (l : list A) (x : A) :
  find f (l ++ [x]) =
    match find f l with
    | Some y => Some y
    | None => if f x then Some x else None
    end.
Proof.
  induction l as [|y l IH]; simpl; [reflexivity|].
  destruct (f y); [reflexivity | exact IH].
Qed.

Lemma strftime_B_d_Y_nonempty d : strftime_B_d_Y d ≠ "".
Proof. unfold strftime_B_d_Y. destruct (mon d); discriminate. Qed.

(** One request to [/new-post] by the administrator. *)
Lemma add_new_post_admin validate rq w :
  is_admin w →
  add_new_post validate rq w =
    let f := post_form rq in
    if validate_on_submit validate (method rq) f then
      if existsb (has_title (title_data f)) (blog_posts (db w)) then
        (Raise IntegrityError, w)
      else
        (Ok (redirect (to_get_all_posts None)),
         mkWorld
           (mkStore (users (db w))
              (blog_posts (db w) ++
                 [mkBlogPost (next_id (post_id <$> blog_posts (db w)))
                    (title_data f) (subtitle_data f) (strftime_B_d_Y (today rq))
                    (body_data f) (img_url_data f) (Some 1)])
              (comments (db w)))
           (sess w))
    else (Ok (render_template (make_post_html f)), w).
Proof.
  intros Ha. unfold add_new_post. rewrite admin_only_allow by exact Ha.
  cbv zeta. destruct (validate_on_submit _ _ _); [|reflexivity].
  unfold bind at 1. rewrite current_user_eq. unfold is_admin in Ha. rewrite Ha.
  unfold add_commit_BlogPost, bind, get_db.
  destruct (existsb _ _); reflexivity.
Qed.

(** C5, as the code has it: when the administrator submits a form that
    validates and whose title no post carries yet, the new row gets the
    next id of the table, a lookup of that id returns exactly the
    submitted title, subtitle, body and image URL, the administrator as
    author, and the non-empty date string printed from the clock at the
    time of the call. *)
Theorem create_then_get validate rq w :
  is_admin w →
  method rq = POST →
  validate (post_form rq) = true →
  title_data (post_form rq) ∉ post_title <$> blog_posts (db w) →
  let f := post_form rq in
  let new_id := next_id (post_id <$> blog_posts (db w)) in
  let p := mkBlogPost new_id (title_data f) (subtitle_data f)
             (strftime_B_d_Y (today rq)) (body_data f) (img_url_data f) (Some 1) in
  let w' := snd (add_new_post validate rq w) in
  fst (add_new_post validate rq w) = Ok (redirect (to_get_all_posts None)) ∧
  blog_posts (db w') = blog_posts (db w) ++ [p] ∧
  BlogPost_query_get new_id w' = (Ok (Some p), w') ∧
  post_author_id p = user_id <$> acting_user w ∧
  post_date p ≠ "".
Proof.
  intros Ha Hm Hv Ht. cbv zeta.
  rewrite (add_new_post_admin _ _ _ Ha). cbv zeta.
  rewrite Hm. simpl validate_on_submit. rewrite Hv.
  destruct (existsb _ _) eqn:E; [apply existsb_has_title in E; contradiction|].
  simpl. split; [reflexivity|]. split; [reflexivity|]. split; [|split].
  - unfold BlogPost_query_get, bind, get_db, ret; simpl.
    rewrite find_snoc, find_has_post_id_none by apply next_id_fresh.
    unfold has_post_id; simpl. by rewrite bool_decide_eq_true_2.
  - symmetry. exact Ha.
  - apply strftime_B_d_Y_nonempty.
Qed.

(** ** Editing a post *)

Lemma find_has_post_id_Some i (l : list BlogPost) p :
  find (has_post_id i) l = Some p → p ∈ l ∧ post_id p = i.
Proof.
  intros H. apply find_some in H as [Hin Hid]. split.
  - by apply list_elem_of_In.
  - unfold has_post_id in Hid. by apply bool_decide_eq_true in Hid.
Qed.

Lemma title_free_for_others i t (l : list BlogPost) :
  (∀ q, q ∈ l → post_id q ≠ i → post_title q ≠ t) →
  existsb (title_taken_by_other i t) l = false.
Proof.
  induction l as [|q l IH]; simpl; intros H; [reflexivity|].
  rewrite IH by (intros q' Hq'; apply H; by right).
  rewrite orb_false_r. unfold title_taken_by_other, has_post_id, has_title.
  case_bool_decide; simpl; [reflexivity|].
  apply bool_decide_eq_false_2. apply H; [by left | assumption].
Qed.

Lemma find_update_row i f (l : list BlogPost) :
  find (has_post_id i) (update_row i f <$> l) =
  update_row i f <$> find (has_post_id i) l.
Proof.
  induction l as [|q l IH]; simpl; [reflexivity|].
  unfold update_row at 1. destruct (has_post_id i q) eqn:E.
  - unfold has_post_id at 1; simpl. unfold has_post_id in E. rewrite E.
    simpl. unfold update_row, has_post_id. by rewrite E.
  - rewrite E. exact IH.
Qed.

(** One request to [/edit-post/<pid>] by the administrator, for a post
    that exists. *)
Lemma edit_post_admin validate rq pid w p :
  is_admin w →
  find (has_post_id pid) (blog_posts (db w)) = Some p →
  edit_post validate rq pid w =
    let f := edit_form rq p in
    if validate_on_submit validate (method rq) f then
      if existsb (title_taken_by_other pid (title_data f)) (blog_posts (db w)) then
        (Raise IntegrityError, w)
      else
        (Ok (redirect (to_show_post pid)),
         mkWorld
           (mkStore (users (db w)) (update_row pid f <$> blog_posts (db w))
              (comments (db w)))
           (sess w))
    else (Ok (render_template (make_post_html f)), w).
Proof.
  intros Ha Hp. unfold edit_post. rewrite admin_only_allow by exact Ha.
  unfold bind at 1, BlogPost_query_get, bind at 1, get_db, ret at 1. rewrite Hp.
  apply find_has_post_id_Some in Hp as [_ ->]. cbv zeta.
  destruct (validate_on_submit _ _ _); [|reflexivity].
  unfold update_commit_BlogPost, bind, get_db.
  destruct (existsb _ _); reflexivity.
Qed.

(** C6, as the code has it: when the administrator submits, for a post
    that exists, a form that validates and whose title no other post
    carries, the row of that id gets the submitted title, subtitle, image
    URL and body and keeps its id, author and date; every other post,
    every user, every comment and the session are unchanged. *)
Theorem edit_replaces_four_fields validate rq pid w p :
  is_admin w →
  find (has_post_id pid) (blog_posts (db w)) = Some p →
  method rq = POST →
  validate (post_form rq) = true →
  (∀ q, q ∈ blog_posts (db w) → post_id q ≠ pid →
        post_title q ≠ title_data (post_form rq)) →
  let f := post_form rq in
  let edited q := mkBlogPost (post_id q) (title_data f) (subtitle_data f)
                    (post_date q) (body_data f) (img_url_data f)
                    (post_author_id q) in
  let w' := snd (edit_post validate rq pid w) in
  fst (edit_post validate rq pid w) = Ok (redirect (to_show_post pid)) ∧
  blog_posts (db w') =
    (λ q, if decide (post_id q = pid) then edited q else q) <$> blog_posts (db w) ∧
  find (has_post_id pid) (blog_posts (db w')) = Some (edited p) ∧
  users (db w') = users (db w) ∧
  comments (db w') = comments (db w) ∧
  sess w' = sess w.
Proof.
  intros Ha Hp Hm Hv Hfree. cbv zeta.
  rewrite (edit_post_admin _ _ _ _ _ Ha Hp). cbv zeta.
  unfold edit_form. rewrite Hm. simpl validate_on_submit. rewrite Hv.
  rewrite title_free_for_others by exact Hfree. simpl.
  split; [reflexivity|]. split; [|split; [|done]].
  - apply list_fmap_ext. intros _ q _. unfold update_row, has_post_id, set_fields.
    case_bool_decide; case_decide; done.
  - rewrite find_update_row, Hp. simpl.
    apply find_has_post_id_Some in Hp as [_ Hid].
    unfold update_row, has_post_id. by rewrite bool_decide_eq_true_2.
Qed.

(** ** Commenting *)

(** One POST to [/post/<pid>]. *)
Lemma show_post_POST rq pid w :
  method rq = POST →
  show_post rq pid w =
    match acting_user w with
    | Some u =>
        match form rq !! "comment" with
        | Some text =>
            (Ok (redirect (to_show_post pid)),
             mkWorld
               (mkStore (users (db w)) (blog_posts (db w))
                  (comments (db w) ++
                     [mkComment (next_id (comment_id <$> comments (db w))) text
                        (Some (user_id u)) (Some pid)]))
               (sess w))
        | None => (Raise (BadRequestKeyError "comment"), w)
        end
    | None =>
        (Ok (redirect to_login),
         mkWorld (db w)
           (push_flash "error" "You need to Register or Login to comment" (sess w)))
    end.
Proof.
  intros Hm. unfold show_post. rewrite Hm.
  unfold bind at 1, Comment_query_filter_by_post_id, bind at 1, get_db, ret at 1.
  unfold bind at 1. rewrite current_user_eq.
  destruct (acting_user w) as [u|]; [|reflexivity].
  unfold bind at 1, request_form.
  destruct (form rq !! "comment"); reflexivity.
Qed.

Lemma comment_count_snoc i s c :
  comment_count i (mkStore (users s) (blog_posts s) (comments s ++ [c])) =
  (if has_parent i c then 1 else 0) + comment_count i s.
Proof.
  unfold comment_count; simpl. rewrite List.filter_app, length_app; simpl.
  destruct (has_parent i c); simpl; lia.
Qed.

(** C7: for a target post id in SQLite's integer range, a comment
    submitted by a logged-in user is appended with the given text, the user's id as author and the target post as parent;
    the target post's comment count grows by exactly one and every other
    post's count stays the same.  Submitted without a logged-in user, the
    request is redirected to the login page with a message and no count
    changes. *)
Theorem add_comment_counts rq pid w text :
  sqlite_integer pid →
  method rq = POST →
  form rq !! "comment" = Some text →
  let w' := snd (show_post rq pid w) in
  (∀ u, acting_user w = Some u →
     fst (show_post rq pid w) = Ok (redirect (to_show_post pid)) ∧
     (∃ c, comments (db w') = comments (db w) ++ [c] ∧
           comment_text c = text ∧
           comment_author_id c = Some (user_id u) ∧
           comment_post_id c = Some pid) ∧
     comment_count pid (db w') = S (comment_count pid (db w)) ∧
     (∀ q, q ≠ pid → comment_count q (db w') = comment_count q (db w))) ∧
  (acting_user w = None →
     show_post rq pid w =
       (Ok (redirect to_login),
        mkWorld (db w)
          (push_flash "error" "You need to Register or Login to comment" (sess w))) ∧
     (∀ q, comment_count q (db w') = comment_count q (db w))).
Proof.
  intros _ Hm Hc. cbv zeta. rewrite (show_post_POST _ _ _ Hm), Hc. split.
  - intros u ->. simpl. split; [reflexivity|]. split; [eauto|]. split.
    + rewrite comment_count_snoc. unfold has_parent; simpl.
      by rewrite bool_decide_eq_true_2.
    + intros q Hq. rewrite comment_count_snoc. unfold has_parent; simpl.
      rewrite bool_decide_eq_false_2; [reflexivity | congruence].
  - intros ->. simpl. done.
Qed.

(** ** Deleting a post *)

(** One request to [/delete/<pid>] by the administrator, for a post that
    exists. *)
Lemma delete_post_admin rq pid w p :
  is_admin w →
  find (has_post_id pid) (blog_posts (db w)) = Some p →
  delete_post rq pid w =
    (Ok (redirect (to_get_all_posts None)),
     mkWorld
       (mkStore (users (db w))
          (List.filter (λ q, negb (has_post_id pid q)) (blog_posts (db w)))
          (detach pid <$> comments (db w)))
       (sess w)).
Proof.
  intros Ha Hp. unfold delete_post. rewrite admin_only_allow by exact Ha.
  unfold bind at 1, BlogPost_query_get, bind at 1, get_db, ret at 1. rewrite Hp.
  apply find_has_post_id_Some in Hp as [_ Hid].
  unfold delete_commit_BlogPost, bind, get_db, put_db, ret. rewrite Hid.
  reflexivity.
Qed.

Lemma detach_keeps_row i c :
  comment_id (detach i c) = comment_id c ∧
  comment_text (detach i c) = comment_text c ∧
  comment_author_id (detach i c) = comment_author_id c.
Proof. unfold detach. destruct (has_parent i c); done. Qed.

Lemma detach_other i c : comment_post_id c ≠ Some i → detach i c = c.
Proof.
  intros H. unfold detach, has_parent. by rewrite bool_decide_eq_false_2.
Qed.

(** C8: deleting an existing post as the administrator removes the rows
    of [blog_posts] with that id and no other, and removes no comment:
    the comment table keeps its length and its ids, texts and authors in
    order.  The comments of other posts are unchanged; those of the
    deleted post stay as rows, with their parent reference cleared. *)
Theorem delete_keeps_comments rq pid w p :
  is_admin w →
  find (has_post_id pid) (blog_posts (db w)) = Some p →
  let w' := snd (delete_post rq pid w) in
  fst (delete_post rq pid w) = Ok (redirect (to_get_all_posts None)) ∧
  (∀ q, q ∈ blog_posts (db w') ↔ q ∈ blog_posts (db w) ∧ post_id q ≠ pid) ∧
  find (has_post_id pid) (blog_posts (db w')) = None ∧
  users (db w') = users (db w) ∧
  length (comments (db w')) = length (comments (db w)) ∧
  comment_id <$> comments (db w') = comment_id <$> comments (db w) ∧
  comment_text <$> comments (db w') = comment_text <$> comments (db w) ∧
  comment_author_id <$> comments (db w') = comment_author_id <$> comments (db w) ∧
  (∀ c, c ∈ comments (db w) → comment_post_id c ≠ Some pid → c ∈ comments (db w')) ∧
  (∀ c, c ∈ comments (db w) → comment_post_id c = Some pid →
        mkComment (comment_id c) (comment_text c) (comment_author_id c) None
          ∈ comments (db w')).
Proof.
  intros Ha Hp. cbv zeta. rewrite (delete_post_admin _ _ _ _ Ha Hp). simpl.
  split; [reflexivity|].
  assert (Hmem : ∀ q, q ∈ List.filter (λ q, negb (has_post_id pid q)) (blog_posts (db w))
                      ↔ q ∈ blog_posts (db w) ∧ post_id q ≠ pid).
  { intros q. rewrite !list_elem_of_In, filter_In, <- list_elem_of_In.
    unfold has_post_id. rewrite negb_true_iff, bool_decide_eq_false. done. }
  split; [exact Hmem|]. split.
  { apply find_has_post_id_none. intros Hin.
    apply list_elem_of_fmap in Hin as (q & Hq & Hin).
    apply Hmem in Hin as [_ Hne]. congruence. }
  split; [reflexivity|]. split; [by rewrite length_fmap|].
  split; [|split; [|split; [|split]]].
  - rewrite <- list_fmap_compose. apply list_fmap_ext.
    intros _ c _. apply (detach_keeps_row pid c).
  - rewrite <- list_fmap_compose. apply list_fmap_ext.
    intros _ c _. apply (detach_keeps_row pid c).
  - rewrite <- list_fmap_compose. apply list_fmap_ext.
    intros _ c _. apply (detach_keeps_row pid c).
  - intros c Hin Hne. rewrite <- (detach_other pid c Hne).
    by apply list_elem_of_fmap_2.
  - intros c Hin Heq.
    replace (mkComment _ _ _ None) with (detach pid c).
    + by apply list_elem_of_fmap_2.
    + unfold detach, has_parent. by rewrite bool_decide_eq_true_2.
Qed.

(** ** Comments on posts that do not exist *)

(** C10: a comment submitted by a logged-in user, for any post id in
    SQLite's integer range, is inserted with the requested post id as its
    parent whether or not [blog_posts] has a row of that id; when it has none, the store afterwards holds a comment
    whose parent post is absent, so [parents_present] fails. *)
Theorem add_comment_skips_post_check rq pid w u text :
  sqlite_integer pid →
  method rq = POST →
  acting_user w = Some u →
  form rq !! "comment" = Some text →
  let w' := snd (show_post rq pid w) in
  fst (show_post rq pid w) = Ok (redirect (to_show_post pid)) ∧
  (∃ c, comments (db w') = comments (db w) ++ [c] ∧ comment_post_id c = Some pid) ∧
  blog_posts (db w') = blog_posts (db w) ∧
  (existsb (has_post_id pid) (blog_posts (db w)) = false →
   parents_present (db w') = false).
Proof.
  intros _ Hm Hu Hc. cbv zeta. rewrite (show_post_POST _ _ _ Hm), Hu, Hc. simpl.
  split; [reflexivity|]. split; [eauto|]. split; [reflexivity|].
  intros Habs. unfold parents_present; simpl.
  rewrite forallb_app; simpl. unfold parent_present at 2; simpl.
  rewrite Habs. apply andb_false_r.
Qed.

(** ** The example site *)

(** Settle a decidable statement about concrete tables by evaluation. *)
Ltac decide_by_running :=
  refine (bool_decide_unpack _ _); vm_compute; exact I.

(** The example site is what the handlers build from empty tables: the
    administrator registers and writes two posts, Alice registers and
    comments on the first one. *)
Example site_is_reachable :
  let w1 := snd (register toy_hash
                   (post_request [("email", "admin@example.com");
                                  ("password", "secret"); ("name", "Admin")]
                      blank_form) empty_site) in
  let w2 := snd (add_new_post toy_validate
                   (post_request []
                      (mkCreatePostForm "Hello World" "First" "http://img/1.png" "Body"))
                   w1) in
  let w3 := snd (add_new_post toy_validate
                   (post_request []
                      (mkCreatePostForm "Second Post" "Next" "http://img/2.png" "More"))
                   w2) in
  let w4 := snd (register toy_hash
                   (post_request [("email", "alice@example.com");
                                  ("password", "wonderland"); ("name", "Alice")]
                      blank_form) w3) in
  let w5 := snd (show_post (post_request [("comment", "Nice post!")] blank_form) 1 w4) in
  db w5 = site ∧ sess_user_id (sess w5) = Some 2 ∧
  fst (show_post get_request 1 w5) =
    Ok (render_template (post_html (Some hello_post) [nice_comment])).
Proof. vm_compute. done. Qed.

(** Alice, logged in but not the administrator, is refused on all three
    routes. *)
Lemma admin_only_forbids_everyone_else_witness :
  ¬ is_admin as_alice ∧
  add_new_post toy_validate (post_request [] blank_form) as_alice = (Forbidden, as_alice) ∧
  edit_post toy_validate (post_request [] blank_form) 1 as_alice = (Forbidden, as_alice) ∧
  delete_post get_request 1 as_alice = (Forbidden, as_alice) ∧
  status_code Forbidden = 403.
Proof.
  assert (H : ¬ is_admin as_alice) by (vm_compute; discriminate).
  split; [exact H|].
  destruct (admin_only_forbids_everyone_else toy_validate
              (post_request [] blank_form) 1 as_alice H) as (Ha & He & _).
  destruct (admin_only_forbids_everyone_else toy_validate get_request 1 as_alice H)
    as (_ & _ & Hd & Hs).
  exact (conj Ha (conj He (conj Hd Hs))).
Defined.

(** A second registration with Alice's email, and a first one for Bob. *)
Lemma register_duplicate_or_new_witness :
  register toy_hash
    (post_request [("email", "alice@example.com"); ("password", "rabbit");
                   ("name", "Alice II")] blank_form) as_visitor =
    (Ok (redirect to_login),
     mkWorld site
       (mkSession None
          [("error", "You've already signed up with that email. Login instead!")])) ∧
  register toy_hash
    (post_request [("email", "bob@example.com"); ("password", "builder");
                   ("name", "Bob")] blank_form) as_visitor =
    (Ok (redirect (to_get_all_posts None)),
     mkWorld
       (mkStore
          [admin_row; alice_row;
           mkUser 3 "bob@example.com" "NaCl00$builder" "Bob"]
          [hello_post; second_post] [nice_comment])
       (mkSession (Some 3)
          [("success", "You've been successfully registered and logged in.")])).
Proof.
  assert (Hdup : "alice@example.com" ∈ user_email <$> users (db as_visitor))
    by decide_by_running.
  assert (Hnew : "bob@example.com" ∉ user_email <$> users (db as_visitor))
    by decide_by_running.
  split.
  - exact (proj1 (register_duplicate_or_new toy_hash
                    (post_request [("email", "alice@example.com");
                                   ("password", "rabbit"); ("name", "Alice II")]
                       blank_form)
                    as_visitor "alice@example.com" "rabbit" "Alice II"
                    eq_refl eq_refl eq_refl eq_refl) Hdup).
  - exact (proj2 (proj2 (register_duplicate_or_new toy_hash
                    (post_request [("email", "bob@example.com");
                                   ("password", "builder"); ("name", "Bob")]
                       blank_form)
                    as_visitor "bob@example.com" "builder" "Bob"
                    eq_refl eq_refl eq_refl eq_refl) Hnew)).
Defined.

(** Alice logs in with her password. *)
Lemma login_outcomes_witness :
  login toy_check
    (post_request [("email", "alice@example.com"); ("password", "wonderland")]
       blank_form) as_visitor =
    (Ok (redirect (to_get_all_posts (Some true))),
     mkWorld site
       (mkSession (Some 2) [("success", "You've been successfully logged in")])).
Proof.
  assert (Hnd : NoDup (user_email <$> users (db as_visitor))).
  { decide_by_running. }
  assert (Hin : alice_row ∈ users (db as_visitor)).
  { decide_by_running. }
  destruct (login_outcomes toy_check
              (post_request [("email", "alice@example.com");
                             ("password", "wonderland")] blank_form)
              as_visitor "alice@example.com" "wonderland"
              eq_refl eq_refl eq_refl Hnd) as [Hu _].
  destruct (Hu alice_row Hin eq_refl) as [Hok _].
  exact (Hok eq_refl).
Defined.



(** C5 fails on the code: the administrator submits a valid form whose
    title is the title of an existing post; the commit raises, nothing is
    inserted, and the id the new row would have got has no row. *)
Lemma create_then_get_counterexample :
  let rq := post_request []
              (mkCreatePostForm "Hello World" "Again" "http://img/3.png" "Text") in
  is_admin as_admin ∧
  toy_validate (post_form rq) = true ∧
  add_new_post toy_validate rq as_admin = (Raise IntegrityError, as_admin) ∧
  BlogPost_query_get (next_id (post_id <$> blog_posts (db as_admin))) as_admin =
    (Ok None, as_admin).
Proof. vm_compute. done. Qed.

Lemma create_then_get_witness :
  let rq := post_request []
              (mkCreatePostForm "Third Post" "Again" "http://img/3.png" "Text") in
  let w' := snd (add_new_post toy_validate rq as_admin) in
  BlogPost_query_get 3 w' =
    (Ok (Some (mkBlogPost 3 "Third Post" "Again" "November 04, 2026" "Text"
                 "http://img/3.png" (Some 1))), w').
Proof.
  assert (Ht : "Third Post" ∉ post_title <$> blog_posts (db as_admin)).
  { decide_by_running. }
  exact (proj1 (proj2 (proj2
    (create_then_get toy_validate
       (post_request []
          (mkCreatePostForm "Third Post" "Again" "http://img/3.png" "Text"))
       as_admin eq_refl eq_refl eq_refl Ht)))).
Defined.

(** C6 fails on the code: the administrator retitles the second post with
    the title of the first one; the commit raises and the second post
    keeps every field it had. *)
Lemma edit_replaces_four_fields_counterexample :
  let rq := post_request []
              (mkCreatePostForm "Hello World" "Next" "http://img/2.png" "More") in
  is_admin as_admin ∧
  toy_validate (post_form rq) = true ∧
  find (has_post_id 2) (blog_posts (db as_admin)) = Some second_post ∧
  edit_post toy_validate rq 2 as_admin = (Raise IntegrityError, as_admin) ∧
  post_title <$> find (has_post_id 2)
                   (blog_posts (db (snd (edit_post toy_validate rq 2 as_admin))))
    ≠ Some "Hello World".
Proof. vm_compute. repeat split; discriminate. Qed.

Lemma edit_replaces_four_fields_witness :
  let rq := post_request []
              (mkCreatePostForm "Second, revised" "Sub" "http://img/9.png" "New") in
  blog_posts (db (snd (edit_post toy_validate rq 2 as_admin))) =
    [hello_post;
     mkBlogPost 2 "Second, revised" "Sub" "November 04, 2026" "New"
       "http://img/9.png" (Some 1)].
Proof.
  assert (Hfree : ∀ q, q ∈ blog_posts (db as_admin) → post_id q ≠ 2 →
                       post_title q ≠ "Second, revised").
  { intros q Hq Hne. simpl in Hq.
    apply elem_of_cons in Hq as [->|Hq]; [discriminate|].
    apply elem_of_cons in Hq as [->|Hq]; [by destruct Hne | inversion Hq]. }
  exact (proj1 (proj2
    (edit_replaces_four_fields toy_validate
       (post_request []
          (mkCreatePostForm "Second, revised" "Sub" "http://img/9.png" "New"))
       2 as_admin second_post eq_refl eq_refl eq_refl eq_refl Hfree))).
Defined.

(** Alice comments on the second post. *)
Lemma add_comment_counts_witness :
  let w' := snd (show_post (post_request [("comment", "Me too")] blank_form) 2 as_alice) in
  sqlite_integer 2 ∧
  comment_count 2 (db w') = 1 ∧ comment_count 2 (db as_alice) = 0 ∧
  comment_count 1 (db w') = comment_count 1 (db as_alice).
Proof.
  assert (Hr : sqlite_integer 2) by reflexivity.
  destruct (add_comment_counts
              (post_request [("comment", "Me too")] blank_form) 2 as_alice "Me too"
              Hr eq_refl eq_refl) as [Hu _].
  destruct (Hu alice_row eq_refl) as (_ & _ & Hc & Ho).
  assert (Hne : 1 ≠ 2) by discriminate.
  exact (conj Hr (conj Hc (conj eq_refl (Ho 1 Hne)))).
Defined.

(** The administrator deletes the first post; its comment stays. *)
Lemma delete_keeps_comments_witness :
  let w' := snd (delete_post get_request 1 as_admin) in
  find (has_post_id 1) (blog_posts (db w')) = None ∧
  length (comments (db w')) = 1 ∧
  mkComment 1 "Nice post!" (Some 2) None ∈ comments (db w').
Proof.
  destruct (delete_keeps_comments get_request 1 as_admin hello_post eq_refl eq_refl)
    as (_ & _ & Hgone & _ & Hlen & _ & _ & _ & _ & Hkept).
  assert (Hin : nice_comment ∈ comments (db as_admin)).
  { decide_by_running. }
  exact (conj Hgone (conj Hlen (Hkept nice_comment Hin eq_refl))).
Defined.

(** Alice comments on post 99, which does not exist: every comment's
    parent was present before, and is not afterwards. *)
Lemma add_comment_skips_post_check_witness :
  let w' := snd (show_post (post_request [("comment", "Anyone?")] blank_form) 99 as_alice) in
  sqlite_integer 99 ∧
  parents_present (db as_alice) = true ∧
  comments (db w') = [nice_comment; mkComment 2 "Anyone?" (Some 2) (Some 99)] ∧
  parents_present (db w') = false.
Proof.
  assert (Hr : sqlite_integer 99) by reflexivity.
  destruct (add_comment_skips_post_check
              (post_request [("comment", "Anyone?")] blank_form) 99 as_alice
              alice_row "Anyone?" Hr eq_refl eq_refl eq_refl) as (_ & _ & _ & Hbad).
  exact (conj Hr (conj eq_refl (conj eq_refl (Hbad eq_refl)))).
Defined.

(** ** What each route can do to the tables

    For any request whatever, each route either leaves the tables as
    they are or makes the one change described here. *)

Ltac run_route :=
  unfold try_except_IntegrityError, admin_only, current_user, load_user,
    User_query_get, User_query_filter_by_email_first,
    Comment_query_filter_by_post_id, BlogPost_query_get, BlogPost_query_all,
    add_commit_User, add_commit_BlogPost, add_commit_Comment,
    update_commit_BlogPost, delete_commit_BlogPost, login_user, logout_user,
    flash, request_form, abort, raise, bind, ret, get_db, put_db, get_sess,
    put_sess;
  simpl; repeat (case_match; simplify_eq/=; try done).

Lemma acting_user_row w u :
  acting_user w = Some u →
  u ∈ users (db w) ∧ sess_user_id (sess w) = Some (user_id u).
Proof.
  unfold acting_user. destruct (sess_user_id (sess w)) as [i|]; [|done].
  intros H. apply find_some in H as [Hin Hid].
  unfold has_user_id in Hid. apply bool_decide_eq_true in Hid.
  split; [by apply list_elem_of_In | by rewrite Hid].
Qed.

Lemma register_effect generate_password_hash rq w :
  let w' := snd (register generate_password_hash rq w) in
  db w' = db w ∨
  ∃ e p n,
    (e ∉ user_email <$> users (db w)) ∧
    db w' = mkStore
              (users (db w) ++ [mkUser (next_id (user_id <$> users (db w))) e p n])
              (blog_posts (db w)) (comments (db w)).
Proof.
  cbv zeta. unfold register. destruct (method rq); [by left|].
  unfold try_except_IntegrityError, bind, request_form.
  destruct (form rq !! "password") as [pw|]; [|by left].
  destruct (form rq !! "email") as [e|]; [|by left].
  destruct (form rq !! "name") as [n|]; [|by left].
  cbv beta iota zeta delta [ret]. unfold add_commit_User, bind, get_db.
  destruct (existsb (has_email e) (users (db w))) eqn:E; [by left|].
  right. exists e, (generate_password_hash pw (salt rq)), n. split; [|done].
  intros Hin. apply existsb_has_email in Hin. congruence.
Qed.

Lemma add_new_post_effect validate rq w :
  let w' := snd (add_new_post validate rq w) in
  db w' = db w ∨
  ∃ t st d b i,
    (t ∉ post_title <$> blog_posts (db w)) ∧
    db w' = mkStore (users (db w))
              (blog_posts (db w) ++
                 [mkBlogPost (next_id (post_id <$> blog_posts (db w))) t st d b i
                    (Some 1)])
              (comments (db w)).
Proof.
  cbv zeta. destruct (decide (is_admin w)) as [Ha|Ha].
  - rewrite (add_new_post_admin _ _ _ Ha). cbv zeta.
    destruct (validate_on_submit _ _ _); [|by left].
    destruct (existsb _ _) eqn:E; [by left|]. right.
    eexists _, _, _, _, _. split; [|reflexivity].
    intros Hin. apply existsb_has_title in Hin. congruence.
  - unfold add_new_post. rewrite admin_only_deny by exact Ha. by left.
Qed.

Lemma edit_post_effect validate rq pid w :
  let w' := snd (edit_post validate rq pid w) in
  db w' = db w ∨
  ∃ f,
    existsb (title_taken_by_other pid (title_data f)) (blog_posts (db w)) = false ∧
    db w' = mkStore (users (db w)) (update_row pid f <$> blog_posts (db w))
              (comments (db w)).
Proof.
  cbv zeta. destruct (decide (is_admin w)) as [Ha|Ha].
  - destruct (find (has_post_id pid) (blog_posts (db w))) as [p|] eqn:Hp.
    + rewrite (edit_post_admin _ _ _ _ _ Ha Hp). cbv zeta.
      destruct (validate_on_submit _ _ _); [|by left].
      destruct (existsb _ _) eqn:E; [by left|]. right. eauto.
    + rewrite (edit_post_unknown _ _ _ _ Hp Ha). by left.
  - unfold edit_post. rewrite admin_only_deny by exact Ha. by left.
Qed.

Lemma delete_post_effect rq pid w :
  let w' := snd (delete_post rq pid w) in
  db w' = db w ∨
  db w' = mkStore (users (db w))
            (List.filter (λ q, negb (has_post_id pid q)) (blog_posts (db w)))
            (detach pid <$> comments (db w)).
Proof.
  cbv zeta. destruct (decide (is_admin w)) as [Ha|Ha].
  - destruct (find (has_post_id pid) (blog_posts (db w))) as [p|] eqn:Hp.
    + rewrite (delete_post_admin _ _ _ _ Ha Hp). by right.
    + rewrite (delete_post_unknown _ _ _ Hp Ha). by left.
  - unfold delete_post. rewrite admin_only_deny by exact Ha. by left.
Qed.

Lemma show_post_effect rq pid w :
  let w' := snd (show_post rq pid w) in
  db w' = db w ∨
  ∃ u text,
    u ∈ users (db w) ∧
    db w' = mkStore (users (db w)) (blog_posts (db w))
              (comments (db w) ++
                 [mkComment (next_id (comment_id <$> comments (db w))) text
                    (Some (user_id u)) (Some pid)]).
Proof.
  cbv zeta. destruct (method rq) eqn:Hm.
  - left. unfold show_post. rewrite Hm. reflexivity.
  - rewrite (show_post_POST _ _ _ Hm).
    destruct (acting_user w) as [u|] eqn:Hu; [|by left].
    destruct (form rq !! "comment") as [text|]; [|by left].
    right. exists u, text. split; [|done].
    by apply acting_user_row in Hu as [? _].
Qed.

Lemma read_only_routes check_password_hash rq w :
  db (snd (get_all_posts rq w)) = db w ∧
  db (snd (login check_password_hash rq w)) = db w ∧
  db (snd (logout rq w)) = db w ∧
  db (snd (about rq w)) = db w ∧
  db (snd (contact rq w)) = db w.
Proof.
  unfold get_all_posts, login, logout, about, contact.
  repeat split; run_route.
Qed.

(** ** The schema's constraints are kept by every route *)

Lemma NoDup_fmap_snoc {A B} (f : A → B) (l : list A) (x : A) :
  NoDup (f <$> l) → f x ∉ f <$> l → NoDup (f <$> (l ++ [x])).
Proof.
  intros Hnd Hx. rewrite fmap_app. apply NoDup_app. split; [exact Hnd|].
  split; [|apply NoDup_singleton].
  intros y Hy Hy'. apply list_elem_of_singleton in Hy'. by subst y.
Qed.

Lemma NoDup_fmap_filter {A B} (f : A → B) (P : A → bool) (l : list A) :
  NoDup (f <$> l) → NoDup (f <$> List.filter P l).
Proof.
  induction l as [|x l IH]; simpl; [done|].
  intros Hnd. apply NoDup_cons in Hnd as [Hx Hnd].
  destruct (P x); simpl; [|auto].
  apply NoDup_cons. split; [|auto].
  intros Hin. apply Hx. apply list_elem_of_fmap in Hin as (y & -> & Hy).
  apply list_elem_of_fmap_2. apply list_elem_of_In in Hy.
  apply filter_In in Hy as [Hy _]. by apply list_elem_of_In.
Qed.

Lemma detach_keeps_ids i (l : list Comment) :
  comment_id <$> (detach i <$> l) = comment_id <$> l.
Proof.
  rewrite <- list_fmap_compose. apply list_fmap_ext.
  intros _ c _. apply (detach_keeps_row i c).
Qed.

Lemma update_row_keeps_ids i f (l : list BlogPost) :
  post_id <$> (update_row i f <$> l) = post_id <$> l.
Proof.
  rewrite <- list_fmap_compose. apply list_fmap_ext.
  intros _ q _. simpl. unfold update_row. by destruct (has_post_id i q).
Qed.

Lemma update_row_absent i f (l : list BlogPost) :
  i ∉ post_id <$> l → update_row i f <$> l = l.
Proof.
  induction l as [|q l IH]; [done|].
  rewrite !fmap_cons, not_elem_of_cons. intros [Hne Hl]. rewrite (IH Hl).
  unfold update_row, has_post_id. rewrite bool_decide_eq_false_2; [done|].
  congruence.
Qed.

Lemma update_row_title i f (l : list BlogPost) t :
  t ∈ post_title <$> (update_row i f <$> l) →
  t = title_data f ∨ t ∈ post_title <$> l.
Proof.
  induction l as [|q l IH]; simpl; [by right|].
  rewrite !elem_of_cons. intros [->|Hin].
  - unfold update_row. destruct (has_post_id i q); simpl; auto.
  - destruct (IH Hin); auto.
Qed.

Lemma update_row_keeps_titles_unique i f (l : list BlogPost) :
  NoDup (post_id <$> l) →
  NoDup (post_title <$> l) →
  existsb (title_taken_by_other i (title_data f)) l = false →
  NoDup (post_title <$> (update_row i f <$> l)).
Proof.
  induction l as [|q l IH]; simpl; [done|].
  intros Hids Htitles Hfree.
  apply NoDup_cons in Hids as [Hq_id Hids].
  apply NoDup_cons in Htitles as [Hq_title Htitles].
  apply orb_false_iff in Hfree as [Hq_free Hfree].
  assert (Hothers : ∀ r, r ∈ l → post_id r ≠ i → post_title r ≠ title_data f).
  { intros r Hr Hne Heq.
    assert (existsb (title_taken_by_other i (title_data f)) l = true) as E.
    { apply existsb_exists. exists r. split; [by apply list_elem_of_In|].
      unfold title_taken_by_other, has_post_id, has_title.
      rewrite bool_decide_eq_false_2 by exact Hne.
      by rewrite bool_decide_eq_true_2. }
    congruence. }
  apply NoDup_cons. split; [|by apply IH].
  unfold update_row at 1, has_post_id at 1. case_bool_decide as Hid; simpl.
  - subst i. rewrite update_row_absent by exact Hq_id.
    intros Hin. apply list_elem_of_fmap in Hin as (r & Heq & Hr).
    apply (Hothers r Hr); [|done].
    intros Heq'. apply Hq_id. rewrite <- Heq'. by apply list_elem_of_fmap_2.
  - intros Hin. apply update_row_title in Hin as [Heq|Hin]; [|contradiction].
    revert Hq_free. unfold title_taken_by_other, has_post_id, has_title.
    rewrite bool_decide_eq_false_2 by exact Hid.
    by rewrite bool_decide_eq_true_2.
Qed.

Section Constraints.
Variable w : world.
Hypothesis ok : store_ok (db w).

Lemma register_keeps_store_ok generate_password_hash rq :
  store_ok (db (snd (register generate_password_hash rq w))).
Proof.
  destruct (register_effect generate_password_hash rq w)
    as [->|(e & p & n & He & ->)]; [exact ok|].
  destruct ok. constructor; simpl; try done.
  - apply NoDup_fmap_snoc; [done | apply next_id_fresh].
  - by apply NoDup_fmap_snoc.
Qed.

Lemma add_new_post_keeps_store_ok validate rq :
  store_ok (db (snd (add_new_post validate rq w))).
Proof.
  destruct (add_new_post_effect validate rq w)
    as [->|(t & st & d & b & i & Ht & ->)]; [exact ok|].
  destruct ok. constructor; simpl; try done.
  - apply NoDup_fmap_snoc; [done | apply next_id_fresh].
  - by apply NoDup_fmap_snoc.
Qed.

Lemma edit_post_keeps_store_ok validate rq pid :
  store_ok (db (snd (edit_post validate rq pid w))).
Proof.
  destruct (edit_post_effect validate rq pid w) as [->|(f & Hf & ->)]; [exact ok|].
  destruct ok. constructor; simpl; try done.
  - by rewrite update_row_keeps_ids.
  - by apply update_row_keeps_titles_unique.
Qed.

Lemma delete_post_keeps_store_ok rq pid :
  store_ok (db (snd (delete_post rq pid w))).
Proof.
  destruct (delete_post_effect rq pid w) as [->| ->]; [exact ok|].
  destruct ok. constructor; simpl; try done.
  - by apply NoDup_fmap_filter.
  - by apply NoDup_fmap_filter.
  - by rewrite detach_keeps_ids.
Qed.

Lemma show_post_keeps_store_ok rq pid :
  store_ok (db (snd (show_post rq pid w))).
Proof.
  destruct (show_post_effect rq pid w) as [->|(u & text & Hu & ->)]; [exact ok|].
  destruct ok. constructor; simpl; try done.
  apply NoDup_fmap_snoc; [done | apply next_id_fresh].
Qed.

End Constraints.

(** X1: whatever the request and the session, no route breaks a
    constraint of the schema: after it, primary keys are still distinct
    in the three tables, emails are distinct and titles are distinct. *)
Theorem routes_keep_store_ok
    generate_password_hash check_password_hash validate rq pid w :
  store_ok (db w) →
  store_ok (db (snd (get_all_posts rq w))) ∧
  store_ok (db (snd (register generate_password_hash rq w))) ∧
  store_ok (db (snd (login check_password_hash rq w))) ∧
  store_ok (db (snd (logout rq w))) ∧
  store_ok (db (snd (show_post rq pid w))) ∧
  store_ok (db (snd (about rq w))) ∧
  store_ok (db (snd (contact rq w))) ∧
  store_ok (db (snd (add_new_post validate rq w))) ∧
  store_ok (db (snd (edit_post validate rq pid w))) ∧
  store_ok (db (snd (delete_post rq pid w))).
Proof.
  intros ok.
  destruct (read_only_routes check_password_hash rq w)
    as (-> & -> & -> & -> & ->).
  repeat apply conj; try exact ok.
  - by apply register_keeps_store_ok.
  - by apply show_post_keeps_store_ok.
  - by apply add_new_post_keeps_store_ok.
  - by apply edit_post_keeps_store_ok.
  - by apply delete_post_keeps_store_ok.
Qed.

(** ** Authors of comments and posts *)

Lemma author_present_more_users s s' c :
  (∀ i, existsb (has_user_id i) (users s) = true →
        existsb (has_user_id i) (users s') = true) →
  author_present s c = true → author_present s' c = true.
Proof.
  unfold author_present. destruct (comment_author_id c); [auto | done].
Qed.

Lemma existsb_has_user_id i (l : list User) :
  existsb (has_user_id i) l = true ↔ i ∈ user_id <$> l.
Proof.
  induction l as [|u l IH]; simpl.
  - split; [discriminate | intros H; inversion H].
  - rewrite orb_true_iff, IH, elem_of_cons. unfold has_user_id.
    rewrite bool_decide_eq_true. split; intros [H|H]; auto.
Qed.

Lemma forallb_pointwise {A} (f g : A → bool) (l : list A) :
  (∀ x, f x = g x) → forallb f l = forallb g l.
Proof.
  intros H. induction l as [|x l IH]; simpl; [done|]. by rewrite H, IH.
Qed.

Lemma authors_present_same_users s s' :
  users s' = users s → comments s' = comments s →
  authors_present s' = authors_present s.
Proof.
  unfold authors_present. intros Hu ->. apply forallb_pointwise.
  intros c. unfold author_present. by rewrite Hu.
Qed.

Lemma detach_keeps_author_present s s' i c :
  users s' = users s →
  author_present s' (detach i c) = author_present s c.
Proof.
  intros Hu. unfold author_present.
  destruct (detach_keeps_row i c) as (_ & _ & ->). by rewrite Hu.
Qed.

Section Authors.
Variable w : world.
Hypothesis ok : authors_present (db w) = true.

Lemma register_keeps_authors generate_password_hash rq :
  authors_present (db (snd (register generate_password_hash rq w))) = true.
Proof.
  destruct (register_effect generate_password_hash rq w)
    as [->|(e & p & n & He & ->)]; [exact ok|].
  unfold authors_present in *; simpl.
  apply forallb_forall. intros c Hc.
  apply (author_present_more_users (db w)); simpl.
  - intros i. rewrite existsb_app. intros ->. reflexivity.
  - revert c Hc. by apply forallb_forall.
Qed.

Lemma add_new_post_keeps_authors validate rq :
  authors_present (db (snd (add_new_post validate rq w))) = true.
Proof.
  destruct (add_new_post_effect validate rq w)
    as [->|(t & st & d & b & i & Ht & ->)]; [exact ok|].
  by rewrite (authors_present_same_users (db w)).
Qed.

Lemma edit_post_keeps_authors validate rq pid :
  authors_present (db (snd (edit_post validate rq pid w))) = true.
Proof.
  destruct (edit_post_effect validate rq pid w) as [->|(f & Hf & ->)]; [exact ok|].
  by rewrite (authors_present_same_users (db w)).
Qed.

Lemma delete_post_keeps_authors rq pid :
  authors_present (db (snd (delete_post rq pid w))) = true.
Proof.
  destruct (delete_post_effect rq pid w) as [->| ->]; [exact ok|].
  unfold authors_present in *; simpl.
  apply forallb_forall. intros c Hc. apply list_elem_of_In in Hc.
  apply list_elem_of_fmap in Hc as (c0 & -> & Hc0).
  rewrite (detach_keeps_author_present (db w)) by reflexivity.
  revert ok. rewrite forallb_forall. intros H. apply H.
  by apply list_elem_of_In.
Qed.

Lemma show_post_keeps_authors rq pid :
  authors_present (db (snd (show_post rq pid w))) = true.
Proof.
  destruct (show_post_effect rq pid w) as [->|(u & text & Hu & ->)]; [exact ok|].
  unfold authors_present in *; simpl. rewrite forallb_app; simpl.
  apply andb_true_iff. split.
  - rewrite <- ok. apply forallb_pointwise. intros c. reflexivity.
  - rewrite andb_true_r. unfold author_present; simpl.
    apply existsb_has_user_id. by apply list_elem_of_fmap_2.
Qed.

End Authors.

(** X2: no route leaves a comment without its author: if every comment's
    author is a row of [users] before a request, the same holds after it,
    whatever the route, the request and the session. *)
Theorem routes_keep_comment_authors
    generate_password_hash check_password_hash validate rq pid w :
  authors_present (db w) = true →
  authors_present (db (snd (get_all_posts rq w))) = true ∧
  authors_present (db (snd (register generate_password_hash rq w))) = true ∧
  authors_present (db (snd (login check_password_hash rq w))) = true ∧
  authors_present (db (snd (logout rq w))) = true ∧
  authors_present (db (snd (show_post rq pid w))) = true ∧
  authors_present (db (snd (about rq w))) = true ∧
  authors_present (db (snd (contact rq w))) = true ∧
  authors_present (db (snd (add_new_post validate rq w))) = true ∧
  authors_present (db (snd (edit_post validate rq pid w))) = true ∧
  authors_present (db (snd (delete_post rq pid w))) = true.
Proof.
  intros ok.
  destruct (read_only_routes check_password_hash rq w)
    as (-> & -> & -> & -> & ->).
  repeat apply conj; try exact ok.
  - by apply register_keeps_authors.
  - by apply show_post_keeps_authors.
  - by apply add_new_post_keeps_authors.
  - by apply edit_post_keeps_authors.
  - by apply delete_post_keeps_authors.
Qed.

Lemma update_row_keeps_author i f p :
  written_by_admin (update_row i f p) = written_by_admin p.
Proof. unfold update_row. by destruct (has_post_id i p). Qed.

(** X3: every post is written by the user with id 1, and stays so: if
    all rows of [blog_posts] have author id 1 before a request, they all
    have it after any of the three routes that write to that table. *)
Theorem post_routes_keep_admin_author validate rq pid w :
  posts_by_admin (db w) = true →
  posts_by_admin (db (snd (add_new_post validate rq w))) = true ∧
  posts_by_admin (db (snd (edit_post validate rq pid w))) = true ∧
  posts_by_admin (db (snd (delete_post rq pid w))) = true.
Proof.
  intros ok. unfold posts_by_admin in *. repeat apply conj.
  - destruct (add_new_post_effect validate rq w)
      as [->|(t & st & d & b & i & Ht & ->)]; [exact ok|].
    simpl. rewrite forallb_app, ok. reflexivity.
  - destruct (edit_post_effect validate rq pid w) as [->|(f & Hf & ->)]; [exact ok|].
    simpl. apply forallb_forall. intros p Hp. apply list_elem_of_In in Hp.
    apply list_elem_of_fmap in Hp as (p0 & -> & Hp0).
    rewrite update_row_keeps_author. revert ok. rewrite forallb_forall.
    intros H. apply H. by apply list_elem_of_In.
  - destruct (delete_post_effect rq pid w) as [->| ->]; [exact ok|].
    simpl. apply forallb_forall. intros p Hp.
    apply filter_In in Hp as [Hp _]. revert ok. rewrite forallb_forall.
    intros H. by apply H.
Qed.

(** ** Requests that change nothing *)

(** X4: a GET request to the index, register, login, post, about,
    contact, new-post or edit-post route leaves the tables and the
    session exactly as they were, for every caller. *)
Theorem GET_leaves_world generate_password_hash check_password_hash validate
    rq pid w :
  method rq = GET →
  snd (get_all_posts rq w) = w ∧
  snd (register generate_password_hash rq w) = w ∧
  snd (login check_password_hash rq w) = w ∧
  snd (show_post rq pid w) = w ∧
  snd (about rq w) = w ∧
  snd (contact rq w) = w ∧
  snd (add_new_post validate rq w) = w ∧
  snd (edit_post validate rq pid w) = w.
Proof.
  intros Hm.
  unfold get_all_posts, register, login, show_post, about, contact,
    add_new_post, edit_post, edit_form, validate_on_submit.
  rewrite Hm. destruct w as [s c].
  repeat apply conj; run_route; reflexivity.
Qed.

(** ** Missing form keys *)

(** X5: a registration POST that lacks one of the keys [password],
    [email], [name] fails with the key error for the first one missing,
    in that order (status 400); the handler for the duplicate email does
    not catch it, nothing is flashed and nothing is written. *)
Theorem register_missing_key generate_password_hash rq w :
  method rq = POST →
  (form rq !! "password" = None →
   register generate_password_hash rq w = (Raise (BadRequestKeyError "password"), w)) ∧
  (is_Some (form rq !! "password") → form rq !! "email" = None →
   register generate_password_hash rq w = (Raise (BadRequestKeyError "email"), w)) ∧
  (is_Some (form rq !! "password") → is_Some (form rq !! "email") →
   form rq !! "name" = None →
   register generate_password_hash rq w = (Raise (BadRequestKeyError "name"), w)) ∧
  (∀ k, status_code (Raise (BadRequestKeyError k)) = 400).
Proof.
  intros Hm. unfold register. rewrite Hm.
  unfold try_except_IntegrityError, bind, request_form.
  repeat apply conj.
  - intros ->. reflexivity.
  - intros [pw ->] ->. reflexivity.
  - intros [pw ->] [e ->] ->. reflexivity.
  - reflexivity.
Qed.

(** X6: a login POST without the [email] key fails with its key error.
    The [password] key is read only once a row with the email is found:
    for an unknown email the request is answered with the "Email doesn't
    exist" message even when no password was sent, and for a known email
    without a password it fails with the key error.  The tables are
    unchanged in each case. *)
Theorem login_missing_key check_password_hash rq w :
  method rq = POST →
  (form rq !! "email" = None →
   login check_password_hash rq w = (Raise (BadRequestKeyError "email"), w)) ∧
  (∀ e, form rq !! "email" = Some e → e ∉ user_email <$> users (db w) →
   login check_password_hash rq w =
     (Ok (redirect to_login),
      mkWorld (db w) (push_flash "error" "Email doesn't exist, Try again." (sess w)))) ∧
  (∀ e, form rq !! "email" = Some e → e ∈ user_email <$> users (db w) →
   form rq !! "password" = None →
   login check_password_hash rq w = (Raise (BadRequestKeyError "password"), w)).
Proof.
  intros Hm. unfold login. rewrite Hm. repeat apply conj.
  - intros He. unfold bind, request_form. rewrite He. reflexivity.
  - intros e He Hnin. unfold bind at 1. rewrite (request_form_Some _ _ _ _ He).
    unfold bind at 1, User_query_filter_by_email_first, bind at 1, get_db, ret at 1.
    rewrite (find_has_email_none _ _ Hnin). reflexivity.
  - intros e He Hin Hp. unfold bind at 1. rewrite (request_form_Some _ _ _ _ He).
    unfold bind at 1, User_query_filter_by_email_first, bind at 1, get_db, ret at 1.
    destruct (find (has_email e) (users (db w))) as [u|] eqn:Hf.
    + unfold bind, request_form. rewrite Hp. reflexivity.
    + apply existsb_has_email in Hin. apply existsb_exists in Hin as (u & Hu & Hue).
      apply (find_none _ _ Hf) in Hu. congruence.
Qed.

(** X7: on a comment POST to a post id in SQLite's integer range, the
    login check comes before the form is read:
    without a logged-in user the request is redirected to the login page
    whether or not a [comment] key was sent; with one, a request lacking
    the key fails with the key error (status 400) and writes nothing. *)
Theorem show_post_missing_comment rq pid w :
  sqlite_integer pid →
  method rq = POST →
  (acting_user w = None →
   show_post rq pid w =
     (Ok (redirect to_login),
      mkWorld (db w)
        (push_flash "error" "You need to Register or Login to comment" (sess w)))) ∧
  (is_Some (acting_user w) → form rq !! "comment" = None →
   show_post rq pid w = (Raise (BadRequestKeyError "comment"), w)).
Proof.
  intros _ Hm. rewrite (show_post_POST _ _ _ Hm). split.
  - intros ->. reflexivity.
  - intros [u ->] ->. reflexivity.
Qed.

(** ** Registration, then login *)

(** One successful POST to [/register], run to its end. *)
Lemma register_POST_new generate_password_hash rq w e pw n :
  method rq = POST →
  form rq !! "email" = Some e →
  form rq !! "password" = Some pw →
  form rq !! "name" = Some n →
  e ∉ user_email <$> users (db w) →
  snd (register generate_password_hash rq w) =
    let u := mkUser (next_id (user_id <$> users (db w))) e
               (generate_password_hash pw (salt rq)) n in
    mkWorld (mkStore (users (db w) ++ [u]) (blog_posts (db w)) (comments (db w)))
      (mkSession (Some (user_id u))
         (sess_flashes (sess w) ++
            [("success", "You've been successfully registered and logged in.")])).
Proof.
  intros Hm He Hp Hn Hnew. unfold register. rewrite Hm.
  unfold try_except_IntegrityError, bind.
  rewrite (request_form_Some _ _ _ _ Hp), (request_form_Some _ _ _ _ He),
    (request_form_Some _ _ _ _ Hn).
  unfold add_commit_User, bind, get_db.
  rewrite existsb_has_email_false by exact Hnew. reflexivity.
Qed.

Lemma find_has_user_id_fresh (l : list User) u :
  user_id u ∉ user_id <$> l →
  find (has_user_id (user_id u)) (l ++ [u]) = Some u.
Proof.
  intros Hfresh. rewrite find_snoc.
  assert (find (has_user_id (user_id u)) l = None) as ->.
  { destruct (find (has_user_id (user_id u)) l) as [v|] eqn:E; [|done].
    apply find_some in E as [Hin Hid]. unfold has_user_id in Hid.
    apply bool_decide_eq_true in Hid. destruct Hfresh. rewrite <- Hid.
    apply list_elem_of_fmap_2. by apply list_elem_of_In. }
  unfold has_user_id. by rewrite bool_decide_eq_true_2.
Qed.

(** X8: an account that was just registered can log in: when the hash
    library accepts the password against the hash it produced, a login
    with the registered email and password, from any session over the
    tables the registration left, binds the session to the id the
    registration assigned. *)
Theorem register_then_login generate_password_hash check_password_hash
    rq rq' w w2 e pw n :
  check_password_hash (generate_password_hash pw (salt rq)) pw = true →
  method rq = POST →
  form rq !! "email" = Some e →
  form rq !! "password" = Some pw →
  form rq !! "name" = Some n →
  e ∉ user_email <$> users (db w) →
  db w2 = db (snd (register generate_password_hash rq w)) →
  method rq' = POST →
  form rq' !! "email" = Some e →
  form rq' !! "password" = Some pw →
  login check_password_hash rq' w2 =
    (Ok (redirect (to_get_all_posts (Some true))),
     mkWorld (db w2)
       (mkSession (Some (next_id (user_id <$> users (db w))))
          (sess_flashes (sess w2) ++
             [("success", "You've been successfully logged in")]))).
Proof.
  intros Hchk Hm He Hp Hn Hnew Hdb Hm' He' Hp'.
  rewrite (register_POST_new _ _ _ _ _ _ Hm He Hp Hn Hnew) in Hdb.
  cbv zeta in Hdb. simpl in Hdb.
  rewrite (login_POST _ _ _ _ _ Hm' He' Hp'). rewrite Hdb. simpl.
  rewrite find_snoc, (find_has_email_none _ _ Hnew).
  unfold has_email at 1; simpl. rewrite bool_decide_eq_true_2 by done.
  simpl. rewrite Hchk.
  set (u := mkUser _ e _ n).
  change (next_id (user_id <$> users (db w))) with (user_id u).
  rewrite find_has_user_id_fresh by apply next_id_fresh. reflexivity.
Qed.

(** ** Who becomes the administrator *)

(** X9: the first account registered on an empty [users] table gets
    id 1, and the session the registration starts is the
    administrator's. *)
Theorem first_registration_is_admin generate_password_hash rq w :
  users (db w) = [] →
  method rq = POST →
  is_Some (form rq !! "email") →
  is_Some (form rq !! "password") →
  is_Some (form rq !! "name") →
  let w' := snd (register generate_password_hash rq w) in
  is_admin w' ∧
  (user_id <$> users (db w')) = [1].
Proof.
  intros Hu Hm [e He] [pw Hp] [n Hn]. cbv zeta.
  rewrite (register_POST_new _ _ _ _ _ _ Hm He Hp Hn)
    by (rewrite Hu; apply not_elem_of_nil).
  rewrite Hu. split; reflexivity.
Qed.

(** X10: once a row with id 1 exists, a registration never yields an
    administrator: the new account gets an id of at least 2, its session
    is refused by the guard, and the create route answers 403. *)
Theorem later_registration_is_not_admin generate_password_hash validate
    rq rq' w e pw n :
  1 ∈ user_id <$> users (db w) →
  method rq = POST →
  form rq !! "email" = Some e →
  form rq !! "password" = Some pw →
  form rq !! "name" = Some n →
  e ∉ user_email <$> users (db w) →
  let w' := snd (register generate_password_hash rq w) in
  sess_user_id (sess w') = Some (next_id (user_id <$> users (db w))) ∧
  (2 ≤ next_id (user_id <$> users (db w)))%nat ∧
  ¬ is_admin w' ∧
  add_new_post validate rq' w' = (Forbidden, w').
Proof.
  intros H1 Hm He Hp Hn Hnew. cbv zeta.
  assert (Hge : (2 ≤ next_id (user_id <$> users (db w)))%nat).
  { apply max_list_elem_of_le in H1. unfold next_id. lia. }
  assert (Hna : ¬ is_admin (snd (register generate_password_hash rq w))).
  { rewrite (register_POST_new _ _ _ _ _ _ Hm He Hp Hn Hnew). cbv zeta.
    unfold is_admin, acting_user; simpl.
    set (u := mkUser _ e _ n).
    change (next_id (user_id <$> users (db w))) with (user_id u).
    rewrite find_has_user_id_fresh by apply next_id_fresh.
    simpl. intros Heq. injection Heq as Heq. unfold next_id in *. lia. }
  split; [|split; [exact Hge|split; [exact Hna|]]].
  - by rewrite (register_POST_new _ _ _ _ _ _ Hm He Hp Hn Hnew).
  - unfold add_new_post. by apply admin_only_deny.
Qed.

(** ** Posts the store refuses *)

(** X11: for the administrator, the create route inserts nothing in two
    cases: a GET, or a form that does not validate, shows the form again
    with the data it was given; a valid submitted form whose title an
    existing post already carries fails at commit with an integrity
    error (status 500).  The world is unchanged in both. *)
Theorem add_new_post_rejections validate rq w :
  is_admin w →
  (validate_on_submit validate (method rq) (post_form rq) = false →
   add_new_post validate rq w =
     (Ok (render_template (make_post_html (post_form rq))), w)) ∧
  (method rq = POST → validate (post_form rq) = true →
   title_data (post_form rq) ∈ post_title <$> blog_posts (db w) →
   add_new_post validate rq w = (Raise IntegrityError, w)) ∧
  status_code (Raise IntegrityError) = 500.
Proof.
  intros Ha. rewrite (add_new_post_admin _ _ _ Ha). cbv zeta.
  repeat apply conj.
  - intros ->. reflexivity.
  - intros -> Hv Hin. simpl. rewrite Hv.
    apply existsb_has_title in Hin. rewrite Hin. reflexivity.
  - reflexivity.
Qed.

Lemma NoDup_fmap_same {A B} (f : A → B) (l : list A) x y :
  NoDup (f <$> l) → x ∈ l → y ∈ l → f x = f y → x = y.
Proof.
  induction l as [|z l IH]; simpl; intros Hnd Hx Hy Heq; [inversion Hx|].
  apply NoDup_cons in Hnd as [Hz Hnd].
  apply elem_of_cons in Hx as [->|Hx]; apply elem_of_cons in Hy as [->|Hy].
  - reflexivity.
  - destruct Hz. rewrite Heq. by apply list_elem_of_fmap_2.
  - destruct Hz. rewrite <- Heq. by apply list_elem_of_fmap_2.
  - by apply IH.
Qed.

(** X12: the uniqueness of titles does not stand in the way of an edit
    that keeps the post's own title: with distinct titles in the table,
    the administrator can resubmit a post under its current title and
    the new subtitle, image URL and body are stored. *)
Theorem edit_post_may_keep_title validate rq pid w p :
  is_admin w →
  find (has_post_id pid) (blog_posts (db w)) = Some p →
  NoDup (post_title <$> blog_posts (db w)) →
  method rq = POST →
  validate (post_form rq) = true →
  title_data (post_form rq) = post_title p →
  let f := post_form rq in
  let w' := snd (edit_post validate rq pid w) in
  fst (edit_post validate rq pid w) = Ok (redirect (to_show_post pid)) ∧
  find (has_post_id pid) (blog_posts (db w')) =
    Some (mkBlogPost pid (post_title p) (subtitle_data f) (post_date p)
            (body_data f) (img_url_data f) (post_author_id p)).
Proof.
  intros Ha Hp Hnd Hm Hv Ht. cbv zeta.
  rewrite (edit_post_admin _ _ _ _ _ Ha Hp). cbv zeta.
  unfold edit_form. rewrite Hm. simpl validate_on_submit. rewrite Hv.
  destruct (find_has_post_id_Some _ _ _ Hp) as [Hin Hid].
  rewrite title_free_for_others; simpl.
  - split; [reflexivity|]. rewrite find_update_row, Hp. simpl.
    unfold update_row, has_post_id. rewrite bool_decide_eq_true_2 by exact Hid.
    unfold set_fields. by rewrite Ht, Hid.
  - intros q Hq Hne Heq. apply Hne. rewrite Ht in Heq.
    by rewrite (NoDup_fmap_same post_title _ q p Hnd Hq Hin Heq).
Qed.

(** X13: an edit that would give a post the title of a different post
    fails at commit with an integrity error, and no row changes. *)
Theorem edit_post_rejects_taken_title validate rq pid w p q :
  is_admin w →
  find (has_post_id pid) (blog_posts (db w)) = Some p →
  method rq = POST →
  validate (post_form rq) = true →
  q ∈ blog_posts (db w) →
  post_id q ≠ pid →
  post_title q = title_data (post_form rq) →
  edit_post validate rq pid w = (Raise IntegrityError, w).
Proof.
  intros Ha Hp Hm Hv Hq Hne Ht.
  rewrite (edit_post_admin _ _ _ _ _ Ha Hp). cbv zeta.
  unfold edit_form. rewrite Hm. simpl validate_on_submit. rewrite Hv.
  assert (existsb (title_taken_by_other pid (title_data (post_form rq)))
            (blog_posts (db w)) = true) as ->; [|reflexivity].
  apply existsb_exists. exists q. split; [by apply list_elem_of_In|].
  unfold title_taken_by_other, has_post_id, has_title.
  rewrite bool_decide_eq_false_2 by exact Hne.
  by rewrite bool_decide_eq_true_2.
Qed.

(** ** Editing twice, and reading back *)

Lemma update_row_twice i f q :
  update_row i f (update_row i f q) = update_row i f q.
Proof.
  unfold update_row at 2 3. destruct (has_post_id i q) eqn:E.
  - unfold update_row, has_post_id; simpl. unfold has_post_id in E. by rewrite E.
  - unfold update_row. by rewrite E.
Qed.

Lemma title_taken_after_update i f t (l : list BlogPost) :
  existsb (title_taken_by_other i t) (update_row i f <$> l) =
  existsb (title_taken_by_other i t) l.
Proof.
  induction l as [|q l IH]; [done|]. rewrite fmap_cons. simpl. rewrite IH.
  f_equal. unfold update_row. destruct (has_post_id i q) eqn:E; [|done].
  unfold title_taken_by_other, has_post_id; simpl.
  unfold has_post_id in E. by rewrite E.
Qed.

Lemma is_admin_same_users w w' :
  users (db w') = users (db w) → sess w' = sess w → is_admin w → is_admin w'.
Proof. unfold is_admin, acting_user. by intros -> ->. Qed.

Section AfterEdit.
Variable validate : CreatePostForm → bool.
Variables (rq : request) (pid : nat) (w : world) (p : BlogPost).
Hypothesis admin : is_admin w.
Hypothesis present : find (has_post_id pid) (blog_posts (db w)) = Some p.
Hypothesis submitted : method rq = POST.
Hypothesis valid : validate (post_form rq) = true.
Hypothesis free :
  existsb (title_taken_by_other pid (title_data (post_form rq)))
    (blog_posts (db w)) = false.

Lemma edit_post_done :
  edit_post validate rq pid w =
    (Ok (redirect (to_show_post pid)),
     mkWorld
       (mkStore (users (db w)) (update_row pid (post_form rq) <$> blog_posts (db w))
          (comments (db w)))
       (sess w)).
Proof.
  rewrite (edit_post_admin _ _ _ _ _ admin present). cbv zeta.
  unfold edit_form. rewrite submitted. simpl validate_on_submit.
  by rewrite valid, free.
Qed.

Lemma edit_post_done_admin : is_admin (snd (edit_post validate rq pid w)).
Proof. rewrite edit_post_done. by apply (is_admin_same_users w). Qed.

Lemma edit_post_done_find :
  find (has_post_id pid) (blog_posts (db (snd (edit_post validate rq pid w)))) =
  Some (set_fields (post_form rq) p).
Proof.
  rewrite edit_post_done. simpl. rewrite find_update_row, present. simpl.
  destruct (find_has_post_id_Some _ _ _ present) as [_ Hid].
  unfold update_row, has_post_id. by rewrite bool_decide_eq_true_2.
Qed.

End AfterEdit.

(** X14: submitting the same accepted edit a second time is accepted
    again and changes nothing: the world after the first edit is a fixed
    point of the request. *)
Theorem edit_post_twice validate rq pid w p :
  is_admin w →
  find (has_post_id pid) (blog_posts (db w)) = Some p →
  method rq = POST →
  validate (post_form rq) = true →
  (∀ q, q ∈ blog_posts (db w) → post_id q ≠ pid →
        post_title q ≠ title_data (post_form rq)) →
  let w' := snd (edit_post validate rq pid w) in
  fst (edit_post validate rq pid w) = Ok (redirect (to_show_post pid)) ∧
  edit_post validate rq pid w' = (Ok (redirect (to_show_post pid)), w').
Proof.
  intros Ha Hp Hm Hv Hfree. cbv zeta.
  apply title_free_for_others in Hfree.
  pose proof (edit_post_done validate rq pid w p Ha Hp Hm Hv Hfree) as Hrun.
  pose proof (edit_post_done_admin validate rq pid w p Ha Hp Hm Hv Hfree) as Ha'.
  pose proof (edit_post_done_find validate rq pid w p Ha Hp Hm Hv Hfree) as Hp'.
  split; [by rewrite Hrun|].
  rewrite (edit_post_done validate rq pid _ _ Ha' Hp' Hm Hv).
  - rewrite Hrun. simpl. do 3 f_equal.
    rewrite <- list_fmap_compose. apply list_fmap_ext.
    intros _ q _. apply update_row_twice.
  - rewrite Hrun. simpl. by rewrite title_taken_after_update.
Qed.

(** X15: what an accepted edit stored is what the edit page shows next:
    after the edit, a GET of the edit page for that post is prefilled
    with exactly the submitted title, subtitle, image URL and body. *)
Theorem edit_post_then_edit_page validate rq rq_get pid w p :
  is_admin w →
  find (has_post_id pid) (blog_posts (db w)) = Some p →
  method rq = POST →
  validate (post_form rq) = true →
  (∀ q, q ∈ blog_posts (db w) → post_id q ≠ pid →
        post_title q ≠ title_data (post_form rq)) →
  method rq_get = GET →
  let w' := snd (edit_post validate rq pid w) in
  edit_post validate rq_get pid w' =
    (Ok (render_template (make_post_html (post_form rq))), w').
Proof.
  intros Ha Hp Hm Hv Hfree Hget. cbv zeta.
  apply title_free_for_others in Hfree.
  pose proof (edit_post_done_admin validate rq pid w p Ha Hp Hm Hv Hfree) as Ha'.
  pose proof (edit_post_done_find validate rq pid w p Ha Hp Hm Hv Hfree) as Hp'.
  rewrite (edit_post_admin _ _ _ _ _ Ha' Hp'). cbv zeta.
  unfold edit_form. rewrite Hget. simpl. by destruct (post_form rq).
Qed.

(** ** Reading back what was written *)

Lemma show_post_GET rq pid w :
  method rq = GET →
  show_post rq pid w =
    (Ok (render_template
           (post_html (find (has_post_id pid) (blog_posts (db w)))
              (List.filter (has_parent pid) (comments (db w))))), w).
Proof. intros Hm. unfold show_post. rewrite Hm. reflexivity. Qed.

(** X16: the index lists the posts in the order they were created: after
    the administrator's accepted submission, the index shows the posts
    that were there, in their order, followed by the new post, which has
    the submitted title and an id no earlier post has. *)
Theorem created_post_is_listed_last validate rq rq' w :
  is_admin w →
  method rq = POST →
  validate (post_form rq) = true →
  title_data (post_form rq) ∉ post_title <$> blog_posts (db w) →
  let w' := snd (add_new_post validate rq w) in
  ∃ p,
    get_all_posts rq' w' =
      (Ok (render_template (index_html (blog_posts (db w) ++ [p]))), w') ∧
    post_title p = title_data (post_form rq) ∧
    post_id p ∉ post_id <$> blog_posts (db w).
Proof.
  intros Ha Hm Hv Ht. cbv zeta.
  rewrite (add_new_post_admin _ _ _ Ha). cbv zeta.
  rewrite Hm. simpl validate_on_submit. rewrite Hv.
  destruct (existsb _ _) eqn:E; [apply existsb_has_title in E; contradiction|].
  eexists. split; [reflexivity|]. split; [reflexivity|]. apply next_id_fresh.
Qed.

Lemma filter_has_parent_snoc q (l : list Comment) n t a i :
  List.filter (has_parent q) (l ++ [mkComment n t a (Some i)]) =
  List.filter (has_parent q) l ++
    (if decide (q = i) then [mkComment n t a (Some i)] else []).
Proof.
  rewrite List.filter_app. f_equal. unfold List.filter, has_parent.
  cbn [comment_post_id]. case_decide as Hq.
  - rewrite bool_decide_eq_true_2; [reflexivity | congruence].
  - rewrite bool_decide_eq_false_2; [reflexivity | congruence].
Qed.

(** X17: a comment shows up on its post's page and nowhere else: after a
    logged-in user's comment on post [pid], the page of [pid] shows the
    comments it showed before, in order, followed by the new one, and
    the page of every other post shows what it showed before.  Post ids
    are taken in SQLite's integer range. *)
Theorem comment_then_page rq rq_get pid w u text :
  sqlite_integer pid →
  method rq = POST →
  acting_user w = Some u →
  form rq !! "comment" = Some text →
  method rq_get = GET →
  let w' := snd (show_post rq pid w) in
  (∃ c,
     comment_text c = text ∧
     comment_author_id c = Some (user_id u) ∧
     show_post rq_get pid w' =
       (Ok (render_template
              (post_html (find (has_post_id pid) (blog_posts (db w)))
                 (List.filter (has_parent pid) (comments (db w)) ++ [c]))), w')) ∧
  (∀ q, sqlite_integer q → q ≠ pid →
        show_post rq_get q w' = (fst (show_post rq_get q w), w')).
Proof.
  intros _ Hm Hu Hc Hget. cbv zeta.
  rewrite (show_post_POST _ _ _ Hm), Hu, Hc.
  cbn [snd]. split.
  - exists (mkComment (next_id (comment_id <$> comments (db w))) text
              (Some (user_id u)) (Some pid)).
    split; [reflexivity|]. split; [reflexivity|].
    rewrite (show_post_GET _ _ _ Hget). cbn [db blog_posts comments].
    rewrite filter_has_parent_snoc. by rewrite decide_True.
  - intros q _ Hq. rewrite !(show_post_GET _ _ _ Hget).
    cbn [fst db blog_posts comments].
    rewrite filter_has_parent_snoc. rewrite decide_False by exact Hq.
    by rewrite app_nil_r.
Qed.

Lemma detach_leaves_no_child i (l : list Comment) :
  List.filter (has_parent i) (detach i <$> l) = [].
Proof.
  induction l as [|c l IH]; [done|]. rewrite fmap_cons. cbn [List.filter].
  rewrite IH. destruct (has_parent i (detach i c)) eqn:E; [|done].
  exfalso. unfold detach in E. destruct (has_parent i c) eqn:E'; [|congruence].
  unfold has_parent in E. cbn [comment_post_id] in E.
  by apply bool_decide_eq_true in E.
Qed.

(** X18: a deleted post is gone for every route: after the administrator
    deletes an existing post, its page is rendered with no post and no
    comments, and a further edit or delete of that id fails on the
    missing record. *)
Theorem deleted_post_is_gone validate rq rq_get rq' pid w p :
  is_admin w →
  find (has_post_id pid) (blog_posts (db w)) = Some p →
  method rq_get = GET →
  let w' := snd (delete_post rq pid w) in
  show_post rq_get pid w' = (Ok (render_template (post_html None [])), w') ∧
  edit_post validate rq' pid w' = (Raise AttributeError, w') ∧
  delete_post rq' pid w' = (Raise UnmappedInstanceError, w').
Proof.
  intros Ha Hp Hget. cbv zeta.
  rewrite (delete_post_admin _ _ _ _ Ha Hp). simpl.
  set (w' := mkWorld _ (sess w)).
  assert (Ha' : is_admin w') by (by apply (is_admin_same_users w)).
  assert (Hgone : find (has_post_id pid) (blog_posts (db w')) = None).
  { destruct (find (has_post_id pid) (blog_posts (db w'))) as [q|] eqn:E; [|done].
    apply find_some in E as [Hin Hid]. simpl in Hin.
    apply filter_In in Hin as [_ Hn]. by rewrite Hid in Hn. }
  split; [|split].
  - rewrite (show_post_GET _ _ _ Hget), Hgone. simpl.
    by rewrite detach_leaves_no_child.
  - by apply edit_post_unknown.
  - by apply delete_post_unknown.
Qed.

(** ** The properties above, on the example site *)

Lemma site_ok : store_ok site.
Proof. constructor; decide_by_running. Qed.

Lemma revised_title_is_free q :
  q ∈ blog_posts (db as_admin) → post_id q ≠ 2 →
  post_title q ≠ title_data (post_form revise_request).
Proof.
  intros Hq Hne. simpl in Hq.
  apply elem_of_cons in Hq as [->|Hq]; [discriminate|].
  apply elem_of_cons in Hq as [->|Hq]; [by destruct Hne | inversion Hq].
Qed.

Lemma routes_keep_store_ok_witness :
  store_ok (db as_admin) ∧
  store_ok (db (snd (edit_post toy_validate revise_request 2 as_admin))) ∧
  store_ok (db (snd (delete_post get_request 1 as_admin))).
Proof.
  destruct (routes_keep_store_ok toy_hash toy_check toy_validate revise_request 2
              as_admin site_ok) as (_ & _ & _ & _ & _ & _ & _ & _ & He & _).
  destruct (routes_keep_store_ok toy_hash toy_check toy_validate get_request 1
              as_admin site_ok) as (_ & _ & _ & _ & _ & _ & _ & _ & _ & Hd).
  exact (conj site_ok (conj He Hd)).
Defined.

Lemma routes_keep_comment_authors_witness :
  authors_present (db as_alice) = true ∧
  authors_present (db (snd (show_post comment_request 2 as_alice))) = true.
Proof.
  destruct (routes_keep_comment_authors toy_hash toy_check toy_validate
              comment_request 2 as_alice eq_refl) as (_ & _ & _ & _ & Hs & _).
  exact (conj eq_refl Hs).
Defined.

Lemma post_routes_keep_admin_author_witness :
  posts_by_admin (db as_admin) = true ∧
  posts_by_admin (db (snd (add_new_post toy_validate third_request as_admin))) = true.
Proof.
  destruct (post_routes_keep_admin_author toy_validate third_request 1 as_admin
              eq_refl) as (Ha & _).
  exact (conj eq_refl Ha).
Defined.

Lemma GET_leaves_world_witness :
  snd (show_post get_request 1 as_alice) = as_alice ∧
  snd (edit_post toy_validate get_request 1 as_admin) = as_admin.
Proof.
  destruct (GET_leaves_world toy_hash toy_check toy_validate get_request 1
              as_alice eq_refl) as (_ & _ & _ & Hs & _).
  destruct (GET_leaves_world toy_hash toy_check toy_validate get_request 1
              as_admin eq_refl) as (_ & _ & _ & _ & _ & _ & _ & He).
  exact (conj Hs He).
Defined.

Lemma register_missing_key_witness :
  register toy_hash
    (post_request [("email", "carol@example.com"); ("name", "Carol")] blank_form)
    as_visitor =
    (Raise (BadRequestKeyError "password"), as_visitor).
Proof.
  exact (proj1 (register_missing_key toy_hash
                  (post_request [("email", "carol@example.com"); ("name", "Carol")]
                     blank_form) as_visitor eq_refl) eq_refl).
Defined.

Lemma login_missing_key_witness :
  login toy_check (post_request [("email", "carol@example.com")] blank_form)
    as_visitor =
    (Ok (redirect to_login),
     mkWorld site (mkSession None [("error", "Email doesn't exist, Try again.")])) ∧
  login toy_check (post_request [("email", "alice@example.com")] blank_form)
    as_visitor =
    (Raise (BadRequestKeyError "password"), as_visitor).
Proof.
  assert (Hnew : "carol@example.com" ∉ user_email <$> users (db as_visitor))
    by decide_by_running.
  assert (Hold : "alice@example.com" ∈ user_email <$> users (db as_visitor))
    by decide_by_running.
  split.
  - exact (proj1 (proj2 (login_missing_key toy_check
                           (post_request [("email", "carol@example.com")] blank_form)
                           as_visitor eq_refl))
             "carol@example.com" eq_refl Hnew).
  - exact (proj2 (proj2 (login_missing_key toy_check
                           (post_request [("email", "alice@example.com")] blank_form)
                           as_visitor eq_refl))
             "alice@example.com" eq_refl Hold eq_refl).
Defined.

Lemma show_post_missing_comment_witness :
  sqlite_integer 1 ∧
  show_post (post_request [] blank_form) 1 as_alice =
    (Raise (BadRequestKeyError "comment"), as_alice) ∧
  show_post (post_request [] blank_form) 1 as_visitor =
    (Ok (redirect to_login),
     mkWorld site
       (mkSession None [("error", "You need to Register or Login to comment")])).
Proof.
  assert (Hr : sqlite_integer 1) by reflexivity.
  exact (conj Hr
          (conj (proj2 (show_post_missing_comment (post_request [] blank_form) 1
                          as_alice Hr eq_refl)
                   (ex_intro _ alice_row eq_refl) eq_refl)
                (proj1 (show_post_missing_comment (post_request [] blank_form) 1
                          as_visitor Hr eq_refl) eq_refl))).
Defined.

Lemma register_then_login_witness :
  let w2 := snd (logout get_request (snd (register toy_hash bob_request as_visitor))) in
  fst (login toy_check bob_login w2) = Ok (redirect (to_get_all_posts (Some true))) ∧
  sess_user_id (sess (snd (login toy_check bob_login w2))) = Some 3.
Proof.
  assert (Hnew : "bob@example.com" ∉ user_email <$> users (db as_visitor))
    by decide_by_running.
  pose proof (register_then_login toy_hash toy_check bob_request bob_login as_visitor
                (snd (logout get_request (snd (register toy_hash bob_request as_visitor))))
                "bob@example.com" "builder" "Bob"
                eq_refl eq_refl eq_refl eq_refl eq_refl Hnew eq_refl
                eq_refl eq_refl eq_refl) as H.
  exact (conj (f_equal fst H) (f_equal (λ r, sess_user_id (sess (snd r))) H)).
Defined.

Lemma first_registration_is_admin_witness :
  is_admin (snd (register toy_hash admin_request empty_site)).
Proof.
  exact (proj1 (first_registration_is_admin toy_hash admin_request empty_site
                  eq_refl eq_refl
                  (ex_intro _ "admin@example.com" eq_refl)
                  (ex_intro _ "secret" eq_refl)
                  (ex_intro _ "Admin" eq_refl))).
Defined.

Lemma later_registration_is_not_admin_witness :
  let w' := snd (register toy_hash bob_request as_visitor) in
  sess_user_id (sess w') = Some 3 ∧
  add_new_post toy_validate third_request w' = (Forbidden, w').
Proof.
  assert (H1 : 1 ∈ user_id <$> users (db as_visitor)) by decide_by_running.
  assert (Hnew : "bob@example.com" ∉ user_email <$> users (db as_visitor))
    by decide_by_running.
  destruct (later_registration_is_not_admin toy_hash toy_validate bob_request
              third_request as_visitor "bob@example.com" "builder" "Bob"
              H1 eq_refl eq_refl eq_refl eq_refl Hnew) as (Hs & _ & _ & Hf).
  exact (conj Hs Hf).
Defined.

Lemma add_new_post_rejections_witness :
  add_new_post toy_validate clash_request as_admin = (Raise IntegrityError, as_admin) ∧
  add_new_post toy_validate (post_request [] blank_form) as_admin =
    (Ok (render_template (make_post_html blank_form)), as_admin).
Proof.
  assert (Hin : "Hello World" ∈ post_title <$> blog_posts (db as_admin))
    by decide_by_running.
  split.
  - exact (proj1 (proj2 (add_new_post_rejections toy_validate clash_request as_admin
                           eq_refl)) eq_refl eq_refl Hin).
  - exact (proj1 (add_new_post_rejections toy_validate (post_request [] blank_form)
                    as_admin eq_refl) eq_refl).
Defined.

Lemma edit_post_may_keep_title_witness :
  find (has_post_id 2)
    (blog_posts (db (snd (edit_post toy_validate retouch_request 2 as_admin)))) =
    Some (mkBlogPost 2 "Second Post" "Sub" "November 04, 2026" "New"
            "http://img/9.png" (Some 1)).
Proof.
  assert (Hnd : NoDup (post_title <$> blog_posts (db as_admin)))
    by decide_by_running.
  exact (proj2 (edit_post_may_keep_title toy_validate retouch_request 2 as_admin
                  second_post eq_refl eq_refl Hnd eq_refl eq_refl eq_refl)).
Defined.

Lemma edit_post_rejects_taken_title_witness :
  edit_post toy_validate clash_request 2 as_admin = (Raise IntegrityError, as_admin).
Proof.
  assert (Hin : hello_post ∈ blog_posts (db as_admin)) by decide_by_running.
  assert (Hne : post_id hello_post ≠ 2) by discriminate.
  exact (edit_post_rejects_taken_title toy_validate clash_request 2 as_admin
           second_post hello_post eq_refl eq_refl eq_refl eq_refl Hin Hne eq_refl).
Defined.

Lemma edit_post_twice_witness :
  let w' := snd (edit_post toy_validate revise_request 2 as_admin) in
  edit_post toy_validate revise_request 2 w' = (Ok (redirect (to_show_post 2)), w').
Proof.
  exact (proj2 (edit_post_twice toy_validate revise_request 2 as_admin second_post
                  eq_refl eq_refl eq_refl eq_refl revised_title_is_free)).
Defined.

Lemma edit_post_then_edit_page_witness :
  let w' := snd (edit_post toy_validate revise_request 2 as_admin) in
  edit_post toy_validate get_request 2 w' =
    (Ok (render_template
           (make_post_html
              (mkCreatePostForm "Second, revised" "Sub" "http://img/9.png" "New"))),
     w').
Proof.
  exact (edit_post_then_edit_page toy_validate revise_request get_request 2 as_admin
           second_post eq_refl eq_refl eq_refl eq_refl revised_title_is_free eq_refl).
Defined.

Lemma created_post_is_listed_last_witness :
  let w' := snd (add_new_post toy_validate third_request as_admin) in
  ∃ p,
    get_all_posts get_request w' =
      (Ok (render_template (index_html ([hello_post; second_post] ++ [p]))), w') ∧
    post_title p = "Third Post" ∧
    post_id p ∉ post_id <$> [hello_post; second_post].
Proof.
  assert (Ht : "Third Post" ∉ post_title <$> blog_posts (db as_admin))
    by decide_by_running.
  exact (created_post_is_listed_last toy_validate third_request get_request as_admin
           eq_refl eq_refl eq_refl Ht).
Defined.

Lemma comment_then_page_witness :
  let w' := snd (show_post comment_request 1 as_alice) in
  sqlite_integer 1 ∧ sqlite_integer 2 ∧
  show_post get_request 1 w' =
    (Ok (render_template
           (post_html (Some hello_post)
              [nice_comment; mkComment 2 "Me too" (Some 2) (Some 1)])), w') ∧
  show_post get_request 2 w' = (fst (show_post get_request 2 as_alice), w').
Proof.
  assert (Hr1 : sqlite_integer 1) by reflexivity.
  assert (Hr2 : sqlite_integer 2) by reflexivity.
  assert (Hne : 2 ≠ 1) by discriminate.
  destruct (comment_then_page comment_request get_request 1 as_alice alice_row
              "Me too" Hr1 eq_refl eq_refl eq_refl eq_refl) as [(c & Ht & Ha & Hp) Ho].
  refine (conj Hr1 (conj Hr2 (conj _ (Ho 2 Hr2 Hne)))).
  reflexivity.
Defined.

Lemma deleted_post_is_gone_witness :
  let w' := snd (delete_post get_request 1 as_admin) in
  show_post get_request 1 w' = (Ok (render_template (post_html None [])), w') ∧
  delete_post get_request 1 w' = (Raise UnmappedInstanceError, w').
Proof.
  destruct (deleted_post_is_gone toy_validate get_request get_request get_request 1
              as_admin hello_post eq_refl eq_refl eq_refl) as (Hs & _ & Hd).
  exact (conj Hs Hd).
Defined.

(** ** What no route ever does *)

(** X19: no route removes or changes a user: after any request to any
    route, the [users] table is the table before it, followed by at most
    one new row, and only [register] ever adds one. *)
Theorem users_only_grow
    generate_password_hash check_password_hash validate rq pid w :
  (∃ k, users (db (snd (register generate_password_hash rq w))) = users (db w) ++ k ∧
        (length k ≤ 1)%nat) ∧
  users (db (snd (get_all_posts rq w))) = users (db w) ∧
  users (db (snd (login check_password_hash rq w))) = users (db w) ∧
  users (db (snd (logout rq w))) = users (db w) ∧
  users (db (snd (show_post rq pid w))) = users (db w) ∧
  users (db (snd (about rq w))) = users (db w) ∧
  users (db (snd (contact rq w))) = users (db w) ∧
  users (db (snd (add_new_post validate rq w))) = users (db w) ∧
  users (db (snd (edit_post validate rq pid w))) = users (db w) ∧
  users (db (snd (delete_post rq pid w))) = users (db w).
Proof.
  destruct (read_only_routes check_password_hash rq w)
    as (-> & -> & -> & -> & ->).
  repeat apply conj; try reflexivity.
  - destruct (register_effect generate_password_hash rq w)
      as [->|(e & p & n & _ & ->)].
    + exists []. split; [by rewrite app_nil_r | simpl; lia].
    + eexists [_]. split; [reflexivity | simpl; lia].
  - by destruct (show_post_effect rq pid w) as [->|(u & t & _ & ->)].
  - by destruct (add_new_post_effect validate rq w)
      as [->|(t & st & d & b & i & _ & ->)].
  - by destruct (edit_post_effect validate rq pid w) as [->|(f & _ & ->)].
  - by destruct (delete_post_effect rq pid w) as [->| ->].
Qed.

Lemma detach_keeps_comment_rows i (l : list Comment) :
  comment_row <$> (detach i <$> l) = comment_row <$> l.
Proof.
  rewrite <- list_fmap_compose. apply list_fmap_ext. intros _ c _.
  unfold comment_row; simpl.
  by destruct (detach_keeps_row i c) as (-> & -> & ->).
Qed.

(** X20: no route removes a comment or rewrites its text or author:
    after any request to any route, the ids, texts and authors of the
    comments are those before it, in the same order, followed by at most
    one new comment, which only a POST to a post page adds. *)
Theorem comments_only_grow
    generate_password_hash check_password_hash validate rq pid w :
  (∃ k, comment_row <$> comments (db (snd (show_post rq pid w))) =
          (comment_row <$> comments (db w)) ++ k ∧
        (length k ≤ 1)%nat ∧ (method rq = GET → k = [])) ∧
  comments (db (snd (get_all_posts rq w))) = comments (db w) ∧
  comments (db (snd (register generate_password_hash rq w))) = comments (db w) ∧
  comments (db (snd (login check_password_hash rq w))) = comments (db w) ∧
  comments (db (snd (logout rq w))) = comments (db w) ∧
  comments (db (snd (about rq w))) = comments (db w) ∧
  comments (db (snd (contact rq w))) = comments (db w) ∧
  comments (db (snd (add_new_post validate rq w))) = comments (db w) ∧
  comments (db (snd (edit_post validate rq pid w))) = comments (db w) ∧
  comment_row <$> comments (db (snd (delete_post rq pid w))) =
    comment_row <$> comments (db w).
Proof.
  destruct (read_only_routes check_password_hash rq w)
    as (-> & -> & -> & -> & ->).
  repeat apply conj; try reflexivity.
  - destruct (method rq) eqn:Hm.
    + exists []. rewrite (show_post_GET _ _ _ Hm). simpl.
      rewrite app_nil_r. split; [reflexivity | split; [lia | done]].
    + destruct (show_post_effect rq pid w) as [->|(u & t & _ & ->)].
      * exists []. rewrite app_nil_r. split; [reflexivity | split; [simpl; lia | done]].
      * eexists [_]. simpl. rewrite fmap_app.
        split; [reflexivity | split; [simpl; lia | discriminate]].
  - by destruct (register_effect generate_password_hash rq w)
      as [->|(e & p & n & _ & ->)].
  - by destruct (add_new_post_effect validate rq w)
      as [->|(t & st & d & b & i & _ & ->)].
  - by destruct (edit_post_effect validate rq pid w) as [->|(f & _ & ->)].
  - destruct (delete_post_effect rq pid w) as [->| ->]; [done|].
    simpl. apply detach_keeps_comment_rows.
Qed.

Lemma update_row_keeps_stamps i f (l : list BlogPost) :
  post_stamp <$> (update_row i f <$> l) = post_stamp <$> l.
Proof.
  rewrite <- list_fmap_compose. apply list_fmap_ext. intros _ q _.
  simpl. unfold update_row. by destruct (has_post_id i q).
Qed.

(** X21: the id, date and author of a post are fixed when it is created:
    the create and edit routes, for any request and any caller, leave
    the ids, dates and authors of the existing posts as they were, in
    order (the create route adding at most one post at the end), and the
    delete route only drops rows, keeping the others unchanged. *)
Theorem post_stamps_are_fixed validate rq pid w :
  (∃ k, post_stamp <$> blog_posts (db (snd (add_new_post validate rq w))) =
          (post_stamp <$> blog_posts (db w)) ++ k ∧ (length k ≤ 1)%nat) ∧
  post_stamp <$> blog_posts (db (snd (edit_post validate rq pid w))) =
    post_stamp <$> blog_posts (db w) ∧
  (∀ p, p ∈ blog_posts (db (snd (delete_post rq pid w))) → p ∈ blog_posts (db w)).
Proof.
  repeat apply conj.
  - destruct (add_new_post_effect validate rq w)
      as [->|(t & st & d & b & i & _ & ->)].
    + exists []. split; [by rewrite app_nil_r | simpl; lia].
    + eexists [_]. simpl. rewrite fmap_app. split; [reflexivity | simpl; lia].
  - destruct (edit_post_effect validate rq pid w) as [->|(f & _ & ->)]; [done|].
    simpl. apply update_row_keeps_stamps.
  - intros p. destruct (delete_post_effect rq pid w) as [->| ->]; [done|].
    simpl. rewrite !list_elem_of_In, filter_In. tauto.
Qed.
